(** * The CrewAI / MCP course: research store and data-access adapter

    A shallow embedding of [lesson2_mcp_integration.py] (class [FastMCPTool])
    and [lesson3_advanced_patterns.py] (classes [ResearchDataStore] and
    [AdvancedMCPTool]), together with the parts of the Python runtime these
    classes call: [str] methods, truthiness, insertion-ordered [dict],
    [json.dumps] / [json.loads], exceptions and [requests]' response
    handling. *)

From Stdlib Require Import String Ascii DecimalString NArith ZArith Bool Lia List.
From Stdlib Require DecimalPos.
Import ListNotations.

Local Open Scope N_scope.

(** ** Python strings

    A Python [str] is a sequence of Unicode code points.  String literals of
    the source are written as Rocq strings (UTF-8 bytes) and decoded by
    [py]. *)

Definition pystr := list N.

Fixpoint utf8_decode (bs : list N) : pystr :=
  match bs with
  | [] => []
  | b0 :: r0 =>
    if b0 <? 128 then b0 :: utf8_decode r0
    else
      match r0 with
      | [] => []
      | b1 :: r1 =>
        if b0 <? 224 then ((b0 - 192) * 64 + (b1 - 128)) :: utf8_decode r1
        else
          match r1 with
          | [] => []
          | b2 :: r2 =>
            if b0 <? 240
            then ((b0 - 224) * 4096 + (b1 - 128) * 64 + (b2 - 128)) :: utf8_decode r2
            else
              match r2 with
              | [] => []
              | b3 :: r3 =>
                ((b0 - 240) * 262144 + (b1 - 128) * 4096 + (b2 - 128) * 64 + (b3 - 128))
                  :: utf8_decode r3
              end
          end
      end
  end.

Definition py (s : string) : pystr :=
  utf8_decode (map N_of_ascii (list_ascii_of_string s)).

Fixpoint str_eqb (a b : pystr) : bool :=
  match a, b with
  | [], [] => true
  | x :: a', y :: b' => (x =? y) && str_eqb a' b'
  | _, _ => false
  end.

Fixpoint startswith (pat s : pystr) : bool :=
  match pat, s with
  | [], _ => true
  | p :: pat', c :: s' => (p =? c) && startswith pat' s'
  | _ :: _, [] => false
  end.

(** [pat in s] *)
Fixpoint contains (pat s : pystr) : bool :=
  startswith pat s ||
  match s with
  | [] => false
  | _ :: s' => contains pat s'
  end.

(** [s.lstrip(chr(c))] and [s.rstrip(chr(c))] for a one-character argument. *)
Fixpoint lstrip (c : N) (s : pystr) : pystr :=
  match s with
  | x :: s' => if x =? c then lstrip c s' else s
  | [] => []
  end.

Fixpoint rstrip (c : N) (s : pystr) : pystr :=
  match s with
  | [] => []
  | x :: s' =>
    match rstrip c s' with
    | [] => if x =? c then [] else [x]
    | r => x :: r
    end
  end.

Fixpoint join (sep : pystr) (parts : list pystr) : pystr :=
  match parts with
  | [] => []
  | [p] => p
  | p :: rest => p ++ sep ++ join sep rest
  end.

Definition is_ascii (c : N) : bool := c <? 128.
Definition ascii_lower (c : N) : N := if (65 <=? c) && (c <=? 90) then c + 32 else c.
Definition ascii_upper (c : N) : N := if (97 <=? c) && (c <=? 122) then c - 32 else c.

(** [str(n)] for an [int]. *)
Definition str_of_int (z : Z) : pystr :=
  map N_of_ascii (list_ascii_of_string (NilZero.string_of_int (Z.to_int z))).

(** ** Python values

    The values that travel through the store and the adapter: the JSON-like
    ones, and [bytes] as a representative of the objects [json.dumps]
    refuses. *)

Inductive pyfloat :=
| FNan
| FInf (neg : bool)
| FFin (neg : bool) (m : N) (e : Z).

Unset Elimination Schemes.
Inductive pyval :=
| PyNone
| PyBool (b : bool)
| PyInt (z : Z)
| PyFloat (f : pyfloat)
| PyStr (s : pystr)
| PyBytes (b : list N)
| PyList (l : list pyval)
| PyDict (d : list (pystr * pyval)).
Set Elimination Schemes.

(** [bool(v)] *)
Definition truthy (v : pyval) : bool :=
  match v with
  | PyNone => false
  | PyBool b => b
  | PyInt z => negb (z =? 0)%Z
  | PyFloat (FFin _ m _) => negb (m =? 0)
  | PyFloat _ => true
  | PyStr s => match s with [] => false | _ => true end
  | PyBytes b => match b with [] => false | _ => true end
  | PyList l => match l with [] => false | _ => true end
  | PyDict d => match d with [] => false | _ => true end
  end.

(** [type(v).__name__] *)
Definition type_name (v : pyval) : pystr :=
  match v with
  | PyNone => py "NoneType"
  | PyBool _ => py "bool"
  | PyInt _ => py "int"
  | PyFloat _ => py "float"
  | PyStr _ => py "str"
  | PyBytes _ => py "bytes"
  | PyList _ => py "list"
  | PyDict _ => py "dict"
  end.

(** What the interpreter and its libraries supply and the source does not
    fix: case mapping outside ASCII, the conversion between floats and
    their decimal text, and the wording of a JSON decoding error. *)
Record PyRuntime := {
  unicode_lower : pystr -> pystr;
  unicode_upper : pystr -> pystr;
  float_repr : pyfloat -> pystr;
  float_of_literal : pystr -> pyfloat;
  decode_error_message : pystr -> pystr
}.

(** [s.lower()] and [s.upper()] *)
Definition lower (rt : PyRuntime) (s : pystr) : pystr :=
  if forallb is_ascii s then map ascii_lower s else unicode_lower rt s.

Definition upper (rt : PyRuntime) (s : pystr) : pystr :=
  if forallb is_ascii s then map ascii_upper s else unicode_upper rt s.

(** ** Insertion-ordered dictionaries with [str] keys *)

Module Dict.

Section Ops.
Context {V : Type}.

Fixpoint get (d : list (pystr * V)) (k : pystr) : option V :=
  match d with
  | [] => None
  | (k', v) :: d' => if str_eqb k k' then Some v else get d' k
  end.

(** [d[k] = v]: a present key keeps its position, a new one goes last. *)
Fixpoint set (d : list (pystr * V)) (k : pystr) (v : V) : list (pystr * V) :=
  match d with
  | [] => [(k, v)]
  | (k', v') :: d' => if str_eqb k k' then (k', v) :: d' else (k', v') :: set d' k v
  end.

Definition keys (d : list (pystr * V)) : list pystr := map fst d.

Definition has (d : list (pystr * V)) (k : pystr) : bool :=
  match get d k with Some _ => true | None => false end.
End Ops.

End Dict.

(** ** Exceptions

    Only subclasses of [Exception] are modelled.  [err_cls] is the class,
    [err_msg] is [str(e)]. *)

Inductive exn_class :=
| ConnectionError | Timeout | HTTPError | JSONDecodeError
| TypeError | AttributeError | NameError | KeyError | ValueError | RuntimeError.

Record exn := { err_cls : exn_class; err_msg : pystr }.

(** [isinstance(e, requests.exceptions.RequestException)] *)
Definition is_RequestException (e : exn) : bool :=
  match err_cls e with
  | ConnectionError | Timeout | HTTPError | JSONDecodeError => true
  | _ => false
  end.

Definition result (A : Type) : Type := (exn + A)%type.

Section MapResult.
Context {A B : Type} (f : A -> result B).

Fixpoint map_result (l : list A) : result (list B) :=
  match l with
  | [] => inr []
  | x :: r =>
    match f x with
    | inl e => inl e
    | inr y =>
      match map_result r with
      | inl e => inl e
      | inr ys => inr (y :: ys)
      end
    end
  end.
End MapResult.

(** ** [json.dumps] *)

Module Json.

Definition hex_digit (d : N) : N := if d <? 10 then 48 + d else 87 + d.

(** ['{0:04x}'.format(n)] for [n < 0x10000] *)
Definition hex4 (n : N) : pystr :=
  [hex_digit (n / 4096 mod 16); hex_digit (n / 256 mod 16);
   hex_digit (n / 16 mod 16); hex_digit (n mod 16)].

(** The two-character escapes of [ESCAPE_DCT]: the letter after the
    backslash. *)
Definition short_escape (c : N) : option N :=
  if c =? 34 then Some 34
  else if c =? 92 then Some 92
  else if c =? 10 then Some 110
  else if c =? 13 then Some 114
  else if c =? 9 then Some 116
  else if c =? 12 then Some 102
  else if c =? 8 then Some 98
  else None.

(** [ensure_ascii=True]: everything outside [' '..'~'] is escaped, code
    points above the BMP as a surrogate pair. *)
Definition escape_char_ascii (c : N) : pystr :=
  match short_escape c with
  | Some e => [92; e]
  | None =>
    if (32 <=? c) && (c <=? 126) then [c]
    else if c <? 65536 then 92 :: 117 :: hex4 c
    else
      let v := c - 65536 in
      (92 :: 117 :: hex4 (N.lor 55296 (N.land (N.shiftr v 10) 1023)))
        ++ (92 :: 117 :: hex4 (N.lor 56320 (N.land v 1023)))
  end.

(** [ensure_ascii=False]: only quotes, backslashes and control characters. *)
Definition escape_char_plain (c : N) : pystr :=
  match short_escape c with
  | Some e => [92; e]
  | None => if c <? 32 then 92 :: 117 :: hex4 c else [c]
  end.

Definition escape (ensure_ascii : bool) (s : pystr) : pystr :=
  flat_map (if ensure_ascii then escape_char_ascii else escape_char_plain) s.

Definition encode_str (ensure_ascii : bool) (s : pystr) : pystr :=
  34 :: escape ensure_ascii s ++ [34].

Definition newline_indent (indent : option nat) (level : nat) : pystr :=
  match indent with
  | Some n => 10 :: repeat 32 (n * level)%nat
  | None => []
  end.

Definition item_separator (indent : option nat) (level : nat) : pystr :=
  match indent with
  | Some _ => 44 :: newline_indent indent level
  | None => [44; 32]
  end.

Definition not_serializable (v : pyval) : exn :=
  {| err_cls := TypeError;
     err_msg := py "Object of type " ++ type_name v ++ py " is not JSON serializable" |}.

Section Encoder.
Variable rt : PyRuntime.

Definition float_str (f : pyfloat) : pystr :=
  match f with
  | FNan => py "NaN"
  | FInf false => py "Infinity"
  | FInf true => py "-Infinity"
  | FFin _ _ _ => float_repr rt f
  end.

Fixpoint encode (indent : option nat) (ensure_ascii : bool) (level : nat) (v : pyval)
  {struct v} : result pystr :=
  match v with
  | PyNone => inr (py "null")
  | PyBool true => inr (py "true")
  | PyBool false => inr (py "false")
  | PyInt z => inr (str_of_int z)
  | PyFloat f => inr (float_str f)
  | PyStr s => inr (encode_str ensure_ascii s)
  | PyBytes _ => inl (not_serializable v)
  | PyList [] => inr (py "[]")
  | PyList l =>
    match map_result (encode indent ensure_ascii (S level)) l with
    | inl e => inl e
    | inr parts =>
      inr (91 :: newline_indent indent (S level)
              ++ join (item_separator indent (S level)) parts
              ++ newline_indent indent level ++ [93])
    end
  | PyDict [] => inr (py "{}")
  | PyDict d =>
    match map_result
            (fun kv : pystr * pyval =>
               match encode indent ensure_ascii (S level) (snd kv) with
               | inl e => inl e
               | inr s => inr (encode_str ensure_ascii (fst kv) ++ [58; 32] ++ s)
               end) d with
    | inl e => inl e
    | inr parts =>
      inr (123 :: newline_indent indent (S level)
               ++ join (item_separator indent (S level)) parts
               ++ newline_indent indent level ++ [125])
    end
  end.

(** [json.dumps(v, indent=indent, ensure_ascii=ensure_ascii)] *)
Definition dumps (indent : option nat) (ensure_ascii : bool) (v : pyval) : result pystr :=
  encode indent ensure_ascii 0 v.

End Encoder.

(** ** [json.loads]

    The decoder of the standard library: [scan_string] is [scanstring] in
    strict mode, [scan_number] the number pattern (an optional minus,
    a zero or a digit string without leading zero, an optional fraction, an
    optional exponent), [parse_value] the
    scanner's dispatch on the next character.  Fuel bounds the nesting depth
    and the length of the loops; [loads] gives as much as the text is long.
    The interpreter's own limits (recursion depth, digits of an integer) are
    left out. *)

Definition is_ws (c : N) : bool := (c =? 32) || (c =? 9) || (c =? 10) || (c =? 13).

Fixpoint skip_ws (s : pystr) : pystr :=
  match s with
  | c :: r => if is_ws c then skip_ws r else s
  | [] => []
  end.

Definition hex_val (c : N) : option N :=
  if (48 <=? c) && (c <=? 57) then Some (c - 48)
  else if (97 <=? c) && (c <=? 102) then Some (c - 87)
  else if (65 <=? c) && (c <=? 70) then Some (c - 55)
  else None.

Definition read_hex4 (s : pystr) : option (N * pystr) :=
  match s with
  | a :: b :: c :: d :: r =>
    match hex_val a, hex_val b, hex_val c, hex_val d with
    | Some x3, Some x2, Some x1, Some x0 => Some (((x3 * 16 + x2) * 16 + x1) * 16 + x0, r)
    | _, _, _, _ => None
    end
  | _ => None
  end.

Definition is_high_surrogate (c : N) : bool := (55296 <=? c) && (c <=? 56319).
Definition is_low_surrogate (c : N) : bool := (56320 <=? c) && (c <=? 57343).

Definition join_surrogates (hi lo : N) : N :=
  65536 + N.lor (N.shiftl (hi - 55296) 10) (lo - 56320).

(** The [BACKSLASH] table: the character a one-letter escape stands for. *)
Definition unescape (e : N) : option N :=
  if e =? 34 then Some 34
  else if e =? 92 then Some 92
  else if e =? 47 then Some 47
  else if e =? 98 then Some 8
  else if e =? 102 then Some 12
  else if e =? 110 then Some 10
  else if e =? 114 then Some 13
  else if e =? 116 then Some 9
  else None.

(** The text after an opening quote: the decoded string and what follows the
    closing quote. *)
Fixpoint scan_string (fuel : nat) (s acc : pystr) : option (pystr * pystr) :=
  match fuel with
  | O => None
  | S f =>
    match s with
    | [] => None
    | c :: r =>
      if c =? 34 then Some (rev acc, r)
      else if c =? 92 then
        match r with
        | [] => None
        | e :: r1 =>
          if e =? 117 then
            match read_hex4 r1 with
            | None => None
            | Some (cp, r2) =>
              if is_high_surrogate cp && startswith [92; 117] r2 then
                match read_hex4 (skipn 2 r2) with
                | None => None
                | Some (cp2, r4) =>
                  if is_low_surrogate cp2
                  then scan_string f r4 (join_surrogates cp cp2 :: acc)
                  else scan_string f r2 (cp :: acc)
                end
              else scan_string f r2 (cp :: acc)
            end
          else
            match unescape e with
            | Some d => scan_string f r1 (d :: acc)
            | None => None
            end
        end
      else if c <? 32 then None
      else scan_string f r (c :: acc)
    end
  end.

Definition is_digit (c : N) : bool := (48 <=? c) && (c <=? 57).

Fixpoint span_digits (s : pystr) : pystr * pystr :=
  match s with
  | c :: r =>
    if is_digit c then let (ds, r') := span_digits r in (c :: ds, r') else ([], s)
  | [] => ([], [])
  end.

Definition int_of_digits (ds : pystr) : Z :=
  fold_left (fun a c => a * 10 + (Z.of_N c - 48))%Z ds 0%Z.

Definition scan_sign (s : pystr) : pystr * pystr :=
  match s with
  | c :: r => if c =? 45 then ([45], r) else ([], s)
  | [] => ([], s)
  end.

Definition scan_int_part (s : pystr) : option (pystr * pystr) :=
  match s with
  | c :: r =>
    if c =? 48 then Some ([48], r)
    else if is_digit c then Some (span_digits s)
    else None
  | [] => None
  end.

Definition scan_frac (s : pystr) : pystr * pystr :=
  match s with
  | c :: r =>
    if c =? 46 then
      match span_digits r with
      | ([], _) => ([], s)
      | (ds, r') => (46 :: ds, r')
      end
    else ([], s)
  | [] => ([], s)
  end.

Definition scan_exp (s : pystr) : pystr * pystr :=
  match s with
  | c :: r =>
    if (c =? 101) || (c =? 69) then
      let (sg, r1) :=
        match r with
        | x :: r' => if (x =? 43) || (x =? 45) then ([x], r') else ([], r)
        | [] => ([], r)
        end in
      match span_digits r1 with
      | ([], _) => ([], s)
      | (ds, r2) => (c :: sg ++ ds, r2)
      end
    else ([], s)
  | [] => ([], s)
  end.

Section Decoder.
Variable rt : PyRuntime.

Definition scan_number (s : pystr) : option (pyval * pystr) :=
  let (sg, s1) := scan_sign s in
  match scan_int_part s1 with
  | None => None
  | Some (ip, s2) =>
    let (fr, s3) := scan_frac s2 in
    let (ex, s4) := scan_exp s3 in
    match fr, ex with
    | [], [] =>
      Some (PyInt (match sg with [] => int_of_digits ip | _ => - int_of_digits ip end)%Z, s4)
    | _, _ => Some (PyFloat (float_of_literal rt (sg ++ ip ++ fr ++ ex)), s4)
    end
  end.

Definition scan_literal (lit : pystr) (v : pyval) (s : pystr) : option (pyval * pystr) :=
  if startswith lit s then Some (v, skipn (length lit) s) else None.

Section Loops.
Variable scan_once : pystr -> option (pyval * pystr).

(** After ["["] and white space, at the first character of an element. *)
Fixpoint parse_elements (fuel : nat) (s : pystr) (acc : list pyval)
  : option (pyval * pystr) :=
  match fuel with
  | O => None
  | S f =>
    match scan_once s with
    | None => None
    | Some (v, r) =>
      match skip_ws r with
      | c :: r' =>
        if c =? 93 then Some (PyList (rev (v :: acc)), r')
        else if c =? 44 then parse_elements f (skip_ws r') (v :: acc)
        else None
      | [] => None
      end
    end
  end.

(** After ["{"] and white space, at the quote that opens a key; the pairs
    read so far are already a dictionary (a repeated key keeps the last
    value). *)
Fixpoint parse_members (fuel : nat) (s : pystr) (acc : list (pystr * pyval))
  : option (pyval * pystr) :=
  match fuel with
  | O => None
  | S f =>
    match s with
    | [] => None
    | q :: r =>
      if q =? 34 then
        match scan_string (S (length r)) r [] with
        | None => None
        | Some (k, r1) =>
          match skip_ws r1 with
          | [] => None
          | c1 :: r2 =>
            if c1 =? 58 then
              match scan_once (skip_ws r2) with
              | None => None
              | Some (v, r3) =>
                match skip_ws r3 with
                | [] => None
                | c2 :: r4 =>
                  if c2 =? 125 then Some (PyDict (Dict.set acc k v), r4)
                  else if c2 =? 44 then parse_members f (skip_ws r4) (Dict.set acc k v)
                  else None
                end
              end
            else None
          end
        end
      else None
    end
  end.
End Loops.

Fixpoint parse_value (fuel : nat) (s : pystr) : option (pyval * pystr) :=
  match fuel with
  | O => None
  | S f =>
    match s with
    | [] => None
    | c :: r =>
      if c =? 34 then
        match scan_string (S (length r)) r [] with
        | Some (str, r') => Some (PyStr str, r')
        | None => None
        end
      else if c =? 123 then
        match skip_ws r with
        | [] => None
        | c' :: r' =>
          if c' =? 125 then Some (PyDict [], r')
          else parse_members (parse_value f) (S (length r)) (c' :: r') []
        end
      else if c =? 91 then
        match skip_ws r with
        | [] => None
        | c' :: r' =>
          if c' =? 93 then Some (PyList [], r')
          else parse_elements (parse_value f) (S (length r)) (c' :: r') []
        end
      else if c =? 110 then scan_literal (py "null") PyNone s
      else if c =? 116 then scan_literal (py "true") (PyBool true) s
      else if c =? 102 then scan_literal (py "false") (PyBool false) s
      else
        match scan_number s with
        | Some res => Some res
        | None =>
          if c =? 78 then scan_literal (py "NaN") (PyFloat FNan) s
          else if c =? 73 then scan_literal (py "Infinity") (PyFloat (FInf false)) s
          else if c =? 45 then scan_literal (py "-Infinity") (PyFloat (FInf true)) s
          else None
        end
    end
  end.

(** [json.loads(s)]; [None] stands for [JSONDecodeError]. *)
Definition loads (s : pystr) : option pyval :=
  match parse_value (S (length s)) (skip_ws s) with
  | None => None
  | Some (v, r) =>
    match skip_ws r with
    | [] => Some v
    | _ :: _ => None
    end
  end.

End Decoder.

End Json.

(** ** The world outside: standard output, the wall clock, the network

    A computation reads and extends a [world] and either returns or raises. *)

Record http_request := {
  req_method : pystr;
  req_url : pystr;
  req_params : pyval;
  req_json : pyval;
  req_headers : list (pystr * pystr);
  req_timeout : Z
}.

Record http_response := {
  status_code : Z;
  reason : pystr;
  text : pystr;
  url : pystr
}.

Record world := {
  stdout : list pystr;
  clock : Z;
  sent : list http_request
}.

Definition M (A : Type) : Type := world -> result A * world.

Definition ret {A} (x : A) : M A := fun w => (inr x, w).
Definition raise {A} (e : exn) : M A := fun w => (inl e, w).
Definition lift {A} (r : result A) : M A := fun w => (r, w).

Definition bind {A B} (m : M A) (k : A -> M B) : M B :=
  fun w =>
    match m w with
    | (inl e, w') => (inl e, w')
    | (inr x, w') => k x w'
    end.

(** [try: body except Exception as e: handler(e)] *)
Definition try_except {A} (body : M A) (handler : exn -> M A) : M A :=
  fun w =>
    match body w with
    | (inl e, w') => handler e w'
    | (inr x, w') => (inr x, w')
    end.

Declare Scope py_scope.
Delimit Scope py_scope with pyM.
Notation "x <- m ;; k" := (bind m (fun x => k))
  (at level 61, m at next level, right associativity) : py_scope.
Notation "m ;;; k" := (bind m (fun _ => k))
  (at level 61, right associativity) : py_scope.

(** [print(line)] *)
Definition print (line : pystr) : M unit :=
  fun w => (inr tt, {| stdout := stdout w ++ [line]; clock := clock w; sent := sent w |}).

(** [datetime.now()], in microseconds *)
Definition datetime_now : M Z := fun w => (inr (clock w), w).

(** ** [requests]

    What the library does with a response.  [raise_for_status] raises
    [HTTPError] for the status codes 400 to 599 and for no others;
    [json] decodes the body and raises [requests]' [JSONDecodeError] when
    it is not JSON. *)

Module Requests.

Definition raise_for_status (r : http_response) : result unit :=
  if ((400 <=? status_code r) && (status_code r <? 500))%Z then
    inl {| err_cls := HTTPError;
           err_msg := str_of_int (status_code r) ++ py " Client Error: " ++ reason r
                        ++ py " for url: " ++ url r |}
  else if ((500 <=? status_code r) && (status_code r <? 600))%Z then
    inl {| err_cls := HTTPError;
           err_msg := str_of_int (status_code r) ++ py " Server Error: " ++ reason r
                        ++ py " for url: " ++ url r |}
  else inr tt.

Definition json (rt : PyRuntime) (r : http_response) : result pyval :=
  match Json.loads rt (text r) with
  | Some v => inr v
  | None => inl {| err_cls := JSONDecodeError; err_msg := decode_error_message rt (text r) |}
  end.

End Requests.

Definition rbind {A B} (r : result A) (k : A -> result B) : result B :=
  match r with
  | inl e => inl e
  | inr x => k x
  end.

Notation "x <~ r ;; k" := (rbind r (fun x => k))
  (at level 61, r at next level, right associativity) : py_scope.

Local Open Scope py_scope.

(** [v.get(k, default)]; only a [dict] has the method. *)
Definition py_get (v : pyval) (k : pystr) (default : pyval) : result pyval :=
  match v with
  | PyDict d => inr (match Dict.get d k with Some x => x | None => default end)
  | _ =>
    inl {| err_cls := AttributeError;
           err_msg := py "'" ++ type_name v ++ py "' object has no attribute 'get'" |}
  end.

(** ** [lesson3_advanced_patterns.ResearchDataStore] *)

Module ResearchDataStore.

Record t := {
  data : list (pystr * pyval);
  timestamps : list (pystr * Z)
}.

Definition __init__ : t := {| data := []; timestamps := [] |}.

(** [now] is what [datetime.now()] returns during the call. *)
Definition store (now : Z) (self : t) (key : pystr) (value : pyval) : t :=
  {| data := Dict.set (data self) key value;
     timestamps := Dict.set (timestamps self) key now |}.

(** [self.data.get(key)] *)
Definition retrieve (self : t) (key : pystr) : pyval :=
  match Dict.get (data self) key with
  | Some v => v
  | None => PyNone
  end.

Definition get_all_keys (self : t) : list pystr := Dict.keys (data self).

(** The names bound at module level in [lesson3_advanced_patterns.py]: its
    imports (lines 13 to 35) and its own classes and function.  None of the
    builtins is called [timedelta] either. *)
Definition module_globals : list pystr :=
  map py ["os"; "sys"; "json"; "time"; "Dict"; "Any"; "List"; "Optional";
          "datetime"; "load_dotenv"; "Agent"; "Task"; "Crew"; "Process";
          "BaseTool"; "BaseModel"; "Field"; "FastMCPTool"; "MCPDataRequest";
          "ResearchDataStore"; "AdvancedMCPTool"; "AdvancedCrewAIWorkflows";
          "main"]%string.

Definition name_defined (globals : list pystr) (name : pystr) : bool :=
  existsb (str_eqb name) globals.

(** [timedelta(minutes=minutes)], in microseconds *)
Definition timedelta_minutes (minutes : Z) : Z := (minutes * 60000000)%Z.

(** The loop over [self.timestamps.items()]. *)
Fixpoint collect_recent (data : list (pystr * pyval)) (cutoff_time : Z)
  (items : list (pystr * Z)) (recent_data : list (pystr * pyval))
  : result (list (pystr * pyval)) :=
  match items with
  | [] => inr recent_data
  | (key, timestamp) :: rest =>
    if (cutoff_time <? timestamp)%Z then
      match Dict.get data key with
      | Some v => collect_recent data cutoff_time rest (Dict.set recent_data key v)
      | None => inl {| err_cls := KeyError; err_msg := py "'" ++ key ++ py "'" |}
      end
    else collect_recent data cutoff_time rest recent_data
  end.

(** [get_recent] as it runs in a module whose global names are [globals]:
    [datetime.now()] is evaluated, then the name [timedelta] is looked up. *)
Definition get_recent_in (globals : list pystr) (now : Z) (self : t) (minutes : Z)
  : result (list (pystr * pyval)) :=
  if name_defined globals (py "timedelta")
  then collect_recent (data self) (now - timedelta_minutes minutes)%Z (timestamps self) []
  else inl {| err_cls := NameError; err_msg := py "name 'timedelta' is not defined" |}.

Definition get_recent : Z -> t -> Z -> result (list (pystr * pyval)) :=
  get_recent_in module_globals.

End ResearchDataStore.

(** ** [lesson2_mcp_integration.FastMCPTool] *)

Inductive http_outcome :=
| Fails (e : exn)
| Responds (r : http_response).

Module FastMCPTool.

Record t := {
  base_url : pystr;
  api_key : option pystr;
  session_headers : list (pystr * pystr)
}.

(** The headers are the ones the constructor adds to the session's. *)
Definition __init__ (base_url : pystr) (api_key : option pystr) : t :=
  {| base_url := rstrip 47 base_url;
     api_key := api_key;
     session_headers :=
       match api_key with
       | Some (c :: k) =>
         [(py "Authorization", py "Bearer " ++ c :: k);
          (py "Content-Type", py "application/json")]
       | _ => [(py "Content-Type", py "application/json")]
       end |}.

Definition default_city : pyval := PyStr (py "San Francisco, CA").

Definition weather_payload (location : pyval) : pyval :=
  PyDict
    [(py "location", location);
     (py "temperature", PyStr (py "72°F"));
     (py "conditions", PyStr (py "Partly cloudy"));
     (py "humidity", PyStr (py "65%"));
     (py "wind_speed", PyStr (py "8 mph"));
     (py "source", PyStr (py "MCP Weather Service"))].

Definition news_payload : pyval :=
  PyDict
    [(py "articles",
      PyList
        [PyDict
           [(py "title", PyStr (py "AI Agents Revolutionize Healthcare Diagnostics"));
            (py "summary",
             PyStr (py "New AI agents are helping doctors diagnose diseases with 95% accuracy."));
            (py "source", PyStr (py "Tech News Today"));
            (py "timestamp", PyStr (py "2024-01-15T10:30:00Z"))];
         PyDict
           [(py "title", PyStr (py "Multi-Agent Systems Transform Business Operations"));
            (py "summary",
             PyStr (py "Companies are adopting multi-agent systems to automate complex workflows."));
            (py "source", PyStr (py "Business Weekly"));
            (py "timestamp", PyStr (py "2024-01-14T15:20:00Z"))]]);
     (py "source", PyStr (py "MCP News Aggregator"))].

Definition research_payload (query : pyval) : pyval :=
  PyDict
    [(py "query", query);
     (py "results",
      PyList
        [PyDict
           [(py "title", PyStr (py "The Rise of AI Agents in Modern Computing"));
            (py "author", PyStr (py "Dr. Sarah Chen"));
            (py "year", PyInt 2024);
            (py "summary",
             PyStr (py "Comprehensive analysis of AI agent architectures and applications."))];
         PyDict
           [(py "title", PyStr (py "Multi-Agent Coordination Strategies"));
            (py "author", PyStr (py "Prof. Michael Rodriguez"));
            (py "year", PyInt 2023);
            (py "summary",
             PyStr (py "Advanced techniques for coordinating multiple AI agents."))]]);
     (py "source", PyStr (py "MCP Research Database"))].

Definition health_payload (symptoms : pyval) : pyval :=
  PyDict
    [(py "symptoms", symptoms);
     (py "possible_conditions",
      PyList [PyStr (py "Tension headache"); PyStr (py "Migraine"); PyStr (py "Dehydration")]);
     (py "recommendations",
      PyList
        [PyStr (py "Stay hydrated"); PyStr (py "Get adequate rest");
         PyStr (py "Consult a healthcare provider if symptoms persist")]);
     (py "source", PyStr (py "MCP Health Assistant"));
     (py "disclaimer",
      PyStr (py "This is not medical advice. Please consult a healthcare professional."))].

Definition default_payload (method endpoint : pystr) : pyval :=
  PyDict
    [(py "message",
      PyStr (py "MCP server received " ++ method ++ py " request to " ++ endpoint));
     (py "timestamp", PyStr (py "2024-01-15T12:00:00Z"));
     (py "status", PyStr (py "success"));
     (py "data_source", PyStr (py "MCP Demo Server"))].

(** [d.get(k, default) if d else default] *)
Definition get_if (d : pyval) (k : pystr) (default : pyval) : result pyval :=
  if truthy d then py_get d k default else inr default.

Section Methods.
Variable rt : PyRuntime.
Variable server : http_request -> http_outcome.

Definition _simulate_mcp_response (self : t) (endpoint method : pystr)
  (params data : pyval) : result pystr :=
  let endpoint_lower := lower rt endpoint in
  if contains (py "weather") endpoint_lower || contains (py "forecast") endpoint_lower then
    location <~ get_if params (py "location") default_city ;;
    Json.dumps rt (Some 2%nat) true (weather_payload location)
  else if contains (py "news") endpoint_lower || contains (py "headlines") endpoint_lower then
    Json.dumps rt (Some 2%nat) true news_payload
  else if contains (py "research") endpoint_lower || contains (py "data") endpoint_lower then
    query <~ get_if params (py "query") (PyStr (py "AI agents")) ;;
    Json.dumps rt (Some 2%nat) true (research_payload query)
  else if contains (py "health") endpoint_lower || contains (py "medical") endpoint_lower then
    symptoms <~ get_if data (py "symptoms")
                 (PyList [PyStr (py "headache"); PyStr (py "fatigue")]) ;;
    Json.dumps rt (Some 2%nat) true (health_payload symptoms)
  else
    Json.dumps rt (Some 2%nat) true (default_payload method endpoint).

(** [self.session.request(method=..., url=..., params=..., json=...,
    timeout=...)]: the request is recorded in [sent], whatever becomes of
    it. *)
Definition session_request (self : t) (method url : pystr) (params json : pyval)
  (timeout : Z) : M http_response :=
  fun w =>
    let req := {| req_method := method; req_url := url; req_params := params;
                  req_json := json; req_headers := session_headers self;
                  req_timeout := timeout |} in
    let w' := {| stdout := stdout w; clock := clock w; sent := sent w ++ [req] |} in
    match server req with
    | Fails e => (inl e, w')
    | Responds r => (inr r, w')
    end.

(** The test that sends [_run] to the simulation. *)
Definition simulated (self : t) (endpoint : pystr) : bool :=
  contains (py "demo") endpoint || str_eqb (base_url self) (py "http://localhost:8000").

Definition error_payload (error_msg : pystr) : pyval :=
  PyDict [(py "error", PyStr error_msg)].

(** The body of the [try] statement of [_run]. *)
Definition _run_try (self : t) (endpoint method : pystr) (params data : pyval) : M pystr :=
  let url := base_url self ++ py "/" ++ lstrip 47 endpoint in
  if simulated self endpoint
  then lift (_simulate_mcp_response self endpoint method params data)
  else
    response <- session_request self (upper rt method) url params data 30 ;;
    lift (Requests.raise_for_status response) ;;;
    result <- lift (Requests.json rt response) ;;
    lift (Json.dumps rt (Some 2%nat) false result).

(** Its two [except] clauses: [RequestException] first, then [Exception]. *)
Definition _run_except (e : exn) : M pystr :=
  if is_RequestException e then
    let error_msg := py "MCP server request failed: " ++ err_msg e in
    print (py "❌ " ++ error_msg) ;;;
    lift (Json.dumps rt None true (error_payload error_msg))
  else
    let error_msg := py "Unexpected error accessing MCP server: " ++ err_msg e in
    print (py "❌ " ++ error_msg) ;;;
    lift (Json.dumps rt None true (error_payload error_msg)).

Definition _run (self : t) (endpoint method : pystr) (params data : pyval) : M pystr :=
  try_except (_run_try self endpoint method params data) _run_except.

End Methods.

End FastMCPTool.

(** ** [lesson3_advanced_patterns.AdvancedMCPTool]

    The subclass adds a store to the inherited configuration; a method that
    changes the store returns the tool it leaves behind. *)

Module AdvancedMCPTool.

Record t := {
  base : FastMCPTool.t;
  data_store : ResearchDataStore.t
}.

(** [data_store or ResearchDataStore()]: a store object is always truthy. *)
Definition __init__ (base_url : pystr) (api_key : option pystr)
  (data_store : option ResearchDataStore.t) : t :=
  {| base := FastMCPTool.__init__ base_url api_key;
     data_store :=
       match data_store with
       | Some s => s
       | None => ResearchDataStore.__init__
       end |}.

Definition store_research_data (self : t) (key : pystr) (data : pyval) : M (pystr * t) :=
  try_except
    (now <- datetime_now ;;
     ret (py "✅ Data stored successfully with key: " ++ key,
          {| base := base self;
             data_store := ResearchDataStore.store now (data_store self) key data |}))
    (fun e => ret (py "❌ Failed to store data: " ++ err_msg e, self)).

Section Methods.
Variable rt : PyRuntime.

Definition retrieve_research_data (self : t) (key : pystr) : pystr :=
  match
    (let data := ResearchDataStore.retrieve (data_store self) key in
     if truthy data
     then Json.dumps rt (Some 2%nat) true data
     else inr (py "❌ No data found for key: " ++ key))
  with
  | inr s => s
  | inl e => py "❌ Failed to retrieve data: " ++ err_msg e
  end.

Definition get_research_summary (self : t) : pystr :=
  let all_keys := ResearchDataStore.get_all_keys (data_store self) in
  match all_keys with
  | [] => py "📊 No research data currently stored"
  | _ =>
    py "📊 Research Data Summary" ++ [10]
      ++ py "Total datasets: " ++ str_of_int (Z.of_nat (length all_keys)) ++ [10]
      ++ py "Available keys: " ++ join (py ", ") all_keys ++ [10]
  end.

End Methods.

End AdvancedMCPTool.

(** ** Call sequences

    The state a store is in after a sequence of calls of its public methods,
    and the same for the tool. *)

Module StoreOps.
Import ResearchDataStore.

Inductive op :=
| Store (now : Z) (key : pystr) (value : pyval)
| Retrieve (key : pystr)
| GetAllKeys
| GetRecent (now : Z) (minutes : Z).

Inductive outcome :=
| Stored
| Retrieved (v : pyval)
| Keys (l : list pystr)
| Recent (r : result (list (pystr * pyval))).

Definition exec (self : t) (o : op) : t * outcome :=
  match o with
  | Store now key value => (store now self key value, Stored)
  | Retrieve key => (self, Retrieved (retrieve self key))
  | GetAllKeys => (self, Keys (get_all_keys self))
  | GetRecent now minutes => (self, Recent (get_recent now self minutes))
  end.

Definition run_from (self : t) (ops : list op) : t :=
  fold_left (fun s o => fst (exec s o)) ops self.

Definition run (ops : list op) : t := run_from __init__ ops.

Definition stores_key (k : pystr) (o : op) : bool :=
  match o with
  | Store _ key _ => str_eqb key k
  | _ => false
  end.

End StoreOps.

Module ToolOps.
Import AdvancedMCPTool.

Inductive call :=
| Run (endpoint method : pystr) (params data : pyval)
| StoreResearch (key : pystr) (data : pyval)
| RetrieveResearch (key : pystr)
| Summary.

Section Exec.
Variable rt : PyRuntime.
Variable server : http_request -> http_outcome.

Definition exec (self : t) (c : call) (w : world) : result pystr * t * world :=
  match c with
  | Run endpoint method params data =>
    let (r, w') := FastMCPTool._run rt server (base self) endpoint method params data w in
    (r, self, w')
  | StoreResearch key data =>
    match store_research_data self key data w with
    | (inr (s, self'), w') => (inr s, self', w')
    | (inl e, w') => (inl e, self, w')
    end
  | RetrieveResearch key => (inr (retrieve_research_data rt self key), self, w)
  | Summary => (inr (get_research_summary self), self, w)
  end.

Fixpoint run (self : t) (cs : list call) (w : world) : t * world :=
  match cs with
  | [] => (self, w)
  | c :: cs' =>
    match exec self c w with
    | (_, self', w') => run self' cs' w'
    end
  end.

End Exec.

End ToolOps.

(** ** Reading the result of [_run] *)

(** The text parses as a JSON object that has the key ["error"]. *)
Definition has_error_key (rt : PyRuntime) (out : pystr) : bool :=
  match Json.loads rt out with
  | Some (PyDict d) => Dict.has d (py "error")
  | _ => false
  end.

(** The value under key [k] of the JSON object [out] parses to. *)
Definition json_field (rt : PyRuntime) (out k : pystr) : option pyval :=
  match Json.loads rt out with
  | Some (PyDict d) => Dict.get d k
  | _ => None
  end.

(** The request [_run] hands to the session on the live path, and the world
    after a line was printed or a request made. *)
Definition live_request (rt : PyRuntime) (self : FastMCPTool.t) (endpoint method : pystr)
  (params data : pyval) : http_request :=
  {| req_method := upper rt method;
     req_url := FastMCPTool.base_url self ++ py "/" ++ lstrip 47 endpoint;
     req_params := params;
     req_json := data;
     req_headers := FastMCPTool.session_headers self;
     req_timeout := 30 |}.

Definition printed (w : world) (line : pystr) : world :=
  {| stdout := stdout w ++ [line]; clock := clock w; sent := sent w |}.

Definition requested (w : world) (req : http_request) : world :=
  {| stdout := stdout w; clock := clock w; sent := sent w ++ [req] |}.

(** The spec's wording of the normalisation, "stripping a trailing
    separator": the last character goes when it is a slash. *)
Definition strip_a_trailing_separator (s : pystr) : pystr :=
  match rev s with
  | c :: r => if c =? 47 then rev r else s
  | [] => []
  end.

(** ** A runtime and servers for the examples

    The examples use ASCII text and no floats, so that what [example_runtime]
    puts in the open places is never looked at. *)

Definition example_runtime : PyRuntime :=
  {| unicode_lower := fun s => s;
     unicode_upper := fun s => s;
     float_repr := fun _ => py "0.0";
     float_of_literal := fun _ => FFin false 0 0;
     decode_error_message := fun _ => py "Expecting value: line 1 column 1 (char 0)" |}.

Definition fresh_world : world := {| stdout := []; clock := 0; sent := [] |}.

(** A server that is not there. *)
Definition refusing_server (_ : http_request) : http_outcome :=
  Fails {| err_cls := ConnectionError; err_msg := py "Connection refused" |}.

(** A server that answers every request with status 300 and an empty JSON
    object. *)
Definition multiple_choices_server (r : http_request) : http_outcome :=
  Responds {| status_code := 300; reason := py "Multiple Choices";
              text := py "{}"; url := req_url r |}.

(** Bounded search, for facts checked over a whole range of code points. *)
Fixpoint all_below (P : N -> bool) (fuel : nat) (i : N) : bool :=
  match fuel with
  | O => true
  | S f => P i && all_below P f (N.succ i)
  end.

(** The checks run over the 16-bit range: four hex digits read back as the
    number they were written from, and the two halves of a surrogate pair
    fall in their ranges. *)
Definition hex4_reads_back (n : N) : bool :=
  match Json.read_hex4 (Json.hex4 n) with
  | Some (m, []) => m =? n
  | _ => false
  end.

Definition high_half_ok (y : N) : bool :=
  let s := N.lor 55296 y in
  (s <? 65536) && Json.is_high_surrogate s && negb (Json.is_low_surrogate s).

Definition low_half_ok (y : N) : bool :=
  let s := N.lor 56320 y in (s <? 65536) && Json.is_low_surrogate s.

(** ** What a call sequence has written

    The history of a store read off the calls themselves, to compare with
    the dictionaries the calls build. *)

Module StoreHistory.
Import StoreOps.

(** The clock reading and the value of the last [store] under [k]. *)
Definition last_write (k : pystr) (ops : list op) : option (Z * pyval) :=
  fold_left
    (fun acc o =>
       match o with
       | Store now key value => if str_eqb key k then Some (now, value) else acc
       | _ => acc
       end) ops None.

(** The keys stored, each once, in the order in which they first came. *)
Definition keys_in_order (ops : list op) : list pystr :=
  fold_left
    (fun acc o =>
       match o with
       | Store _ key _ => if existsb (str_eqb key) acc then acc else acc ++ [key]
       | _ => acc
       end) ops [].

End StoreHistory.

(** The [store] calls a sequence of tool calls makes on the attached store,
    each at the clock reading [now] of the world it runs in. *)
Definition store_calls (now : Z) (cs : list ToolOps.call) : list StoreOps.op :=
  flat_map
    (fun c =>
       match c with
       | ToolOps.StoreResearch key data => [StoreOps.Store now key data]
       | _ => []
       end) cs.

(** The endpoint falls in one of the four keyword categories of
    [_simulate_mcp_response]. *)
Definition has_keyword (endpoint_lower : pystr) : bool :=
  existsb (fun kw => contains (py kw) endpoint_lower)
    ["weather"; "forecast"; "news"; "headlines"; "research"; "data"; "health"; "medical"]%string.

(** The message either [except] clause of [_run] builds for [e]. *)
Definition error_message (e : exn) : pystr :=
  (if is_RequestException e
   then py "MCP server request failed: "
   else py "Unexpected error accessing MCP server: ") ++ err_msg e.

(** ** The environment

    [os.getenv(name, default)] on the process environment, as it is after
    [load_dotenv()]. *)

Definition getenv (environ : list (pystr * pystr)) (name default : pystr) : pystr :=
  match Dict.get environ name with
  | Some v => v
  | None => default
  end.

(** ** [lesson2_mcp_integration.MCPIntegrationLesson]: set-up *)

Module MCPIntegrationLesson.

Record t := {
  mcp_url : pystr;
  mcp_api_key : pystr;
  mcp_tool : FastMCPTool.t
}.

(** The two attributes [setup_environment] assigns. *)
Definition setup_environment (environ : list (pystr * pystr)) : M (pystr * pystr) :=
  let mcp_url := getenv environ (py "FASTMCP_URL") (py "http://localhost:8000") in
  let mcp_api_key := getenv environ (py "FASTMCP_API_KEY") [] in
  print (py "✅ MCP Environment configured:") ;;;
  print (py "   MCP URL: " ++ mcp_url) ;;;
  print (py "   API Key configured: "
         ++ (if truthy (PyStr mcp_api_key) then py "Yes" else py "No")) ;;;
  ret (mcp_url, mcp_api_key).

Definition create_mcp_tool (mcp_url mcp_api_key : pystr) : M FastMCPTool.t :=
  print (py "🔧 Creating FastMCP tool...") ;;;
  let tool := FastMCPTool.__init__ mcp_url (Some mcp_api_key) in
  print (py "✅ FastMCP tool created successfully") ;;;
  ret tool.

Definition __init__ (environ : list (pystr * pystr)) : M t :=
  attrs <- setup_environment environ ;;
  tool <- create_mcp_tool (fst attrs) (snd attrs) ;;
  ret {| mcp_url := fst attrs; mcp_api_key := snd attrs; mcp_tool := tool |}.

End MCPIntegrationLesson.

(** ** [lesson3_advanced_patterns.AdvancedCrewAIWorkflows]: set-up and the
    data-sharing demonstration

    [self.data_store] and the store of [self.mcp_tool] are one object; the
    record keeps it inside the tool. *)

Module AdvancedCrewAIWorkflows.

Record t := {
  mcp_url : pystr;
  mcp_api_key : pystr;
  mcp_tool : AdvancedMCPTool.t
}.

Definition data_store (self : t) : ResearchDataStore.t :=
  AdvancedMCPTool.data_store (mcp_tool self).

Definition setup_environment (environ : list (pystr * pystr)) : M (pystr * pystr) :=
  let mcp_url := getenv environ (py "FASTMCP_URL") (py "http://localhost:8000") in
  let mcp_api_key := getenv environ (py "FASTMCP_API_KEY") [] in
  print (py "✅ Advanced workflow environment configured") ;;;
  print (py "   MCP URL: " ++ mcp_url) ;;;
  ret (mcp_url, mcp_api_key).

Definition create_advanced_mcp_tool (mcp_url mcp_api_key : pystr)
  (data_store : ResearchDataStore.t) : AdvancedMCPTool.t :=
  AdvancedMCPTool.__init__ mcp_url (Some mcp_api_key) (Some data_store).

Definition __init__ (environ : list (pystr * pystr)) : M t :=
  attrs <- setup_environment environ ;;
  let data_store := ResearchDataStore.__init__ in
  ret {| mcp_url := fst attrs; mcp_api_key := snd attrs;
         mcp_tool := create_advanced_mcp_tool (fst attrs) (snd attrs) data_store |}.

Definition sample_research_data : pyval :=
  PyDict
    [(py "ai_agents_market_size", PyStr (py "$15.7 billion in 2024"));
     (py "growth_rate", PyStr (py "37.3% CAGR"));
     (py "key_applications",
      PyList [PyStr (py "Healthcare"); PyStr (py "Finance"); PyStr (py "Manufacturing");
              PyStr (py "Customer Service")]);
     (py "major_players",
      PyList [PyStr (py "OpenAI"); PyStr (py "Anthropic"); PyStr (py "Google");
              PyStr (py "Microsoft")])].

Definition technical_analysis : pyval :=
  PyDict [(py "architecture", PyStr (py "multi-agent")); (py "performance", PyStr (py "high"))].

Section Methods.
Variable rt : PyRuntime.

Definition demonstrate_data_sharing (self : t) : M t :=
  print (py "📊 Demonstrating data sharing between agents...") ;;;
  r1 <- AdvancedMCPTool.store_research_data (mcp_tool self) (py "market_research")
          sample_research_data ;;
  r2 <- AdvancedMCPTool.store_research_data (snd r1) (py "technical_analysis")
          technical_analysis ;;
  let market_data := AdvancedMCPTool.retrieve_research_data rt (snd r2) (py "market_research") in
  let summary := AdvancedMCPTool.get_research_summary (snd r2) in
  print (py "✅ Data sharing demonstration completed") ;;;
  print (py "Market data retrieved: " ++ market_data) ;;;
  print (py "Research summary: " ++ summary) ;;;
  ret {| mcp_url := mcp_url self; mcp_api_key := mcp_api_key self; mcp_tool := snd r2 |}.

End Methods.

End AdvancedCrewAIWorkflows.

(** ** Stores as shared objects

    A store is an object that several tools can hold.  [heap] lists the
    stores that exist, a reference is a position in it.  The methods are the
    ones of [AdvancedMCPTool], run on the store the reference points to. *)

Module SharedStore.

Definition heap := list ResearchDataStore.t.

Record tool := {
  tool_base : FastMCPTool.t;
  store_ref : nat
}.

Definition deref (h : heap) (r : nat) : ResearchDataStore.t :=
  nth r h ResearchDataStore.__init__.

Fixpoint assign (h : heap) (r : nat) (s : ResearchDataStore.t) : heap :=
  match h, r with
  | [], _ => []
  | _ :: h', O => s :: h'
  | x :: h', S r' => x :: assign h' r' s
  end.

(** [ResearchDataStore()] *)
Definition new_store (h : heap) : nat * heap :=
  (length h, h ++ [ResearchDataStore.__init__]).

(** [AdvancedMCPTool(base_url, api_key, data_store)]: the store passed, or a
    new one when none is. *)
Definition make_tool (base_url : pystr) (api_key : option pystr) (data_store : option nat)
  (h : heap) : tool * heap :=
  match data_store with
  | Some r => ({| tool_base := FastMCPTool.__init__ base_url api_key; store_ref := r |}, h)
  | None =>
    let (r, h') := new_store h in
    ({| tool_base := FastMCPTool.__init__ base_url api_key; store_ref := r |}, h')
  end.

(** The tool as [AdvancedMCPTool] sees it in the heap [h]. *)
Definition view (h : heap) (self : tool) : AdvancedMCPTool.t :=
  {| AdvancedMCPTool.base := tool_base self;
     AdvancedMCPTool.data_store := deref h (store_ref self) |}.

Definition store_research_data (self : tool) (key : pystr) (data : pyval) (h : heap)
  : M (pystr * heap) :=
  r <- AdvancedMCPTool.store_research_data (view h self) key data ;;
  ret (fst r, assign h (store_ref self) (AdvancedMCPTool.data_store (snd r))).

Definition retrieve_research_data (rt : PyRuntime) (self : tool) (key : pystr) (h : heap)
  : pystr :=
  AdvancedMCPTool.retrieve_research_data rt (view h self) key.

Definition get_research_summary (self : tool) (h : heap) : pystr :=
  AdvancedMCPTool.get_research_summary (view h self).

End SharedStore.

(** ** Well-formed text and values

    A code point is a Unicode scalar value when it is in range and not a
    surrogate.  The check below runs over the twenty bits a surrogate pair
    carries: split and joined again, they give the same number. *)

Definition scalar (c : N) : bool := (c <? 55296) || ((57343 <? c) && (c <=? 1114111)).

Definition pair_joins_back (v : N) : bool :=
  Json.join_surrogates (N.lor 55296 (N.land (N.shiftr v 10) 1023))
                       (N.lor 56320 (N.land v 1023))
  =? 65536 + v.

Definition pairs_join_back_row (hi : N) : bool :=
  all_below (fun lo => pair_joins_back (hi * 1024 + lo)) (N.to_nat 1024) 0.

(** ** Values that survive the trip through JSON

    [plain] values are made of [None], booleans, integers, well-formed
    strings, lists, and dictionaries whose keys are well-formed and distinct;
    [depth] counts the nesting.  [reads_back v text] says how the decoder
    meets [text]: it starts with a character that is not white space and
    closes nothing, it is at least as long as [v] is deep, and followed by a
    delimiter it is read as [v].  [codes] and [digit_step] spell out decimal
    digits and their value. *)

Definition codes (s : string) : pystr := map N_of_ascii (list_ascii_of_string s).

Definition digit_step (a : Z) (c : N) : Z := (a * 10 + (Z.of_N c - 48))%Z.

Definition delimited (rest : pystr) : bool :=
  match rest with
  | [] => true
  | c :: _ => (c =? 44) || (c =? 93) || (c =? 125) || Json.is_ws c
  end.

Fixpoint distinct (l : list pystr) : bool :=
  match l with
  | [] => true
  | k :: r => negb (existsb (str_eqb k) r) && distinct r
  end.

Fixpoint plain (v : pyval) : bool :=
  match v with
  | PyNone | PyBool _ | PyInt _ => true
  | PyFloat _ | PyBytes _ => false
  | PyStr s => forallb scalar s
  | PyList l => forallb plain l
  | PyDict d =>
    forallb (fun kv : pystr * pyval => forallb scalar (fst kv) && plain (snd kv)) d
    && distinct (map fst d)
  end.

Fixpoint depth (v : pyval) : nat :=
  match v with
  | PyList l => S (list_max (map depth l))
  | PyDict d => S (list_max (map (fun kv : pystr * pyval => depth (snd kv)) d))
  | _ => O
  end.

Definition reads_back (rt : PyRuntime) (v : pyval) (text : pystr) : Prop :=
  (exists c t, text = c :: t /\ Json.is_ws c = false /\ (c =? 93) = false /\ (c =? 125) = false)
  /\ (depth v <= length text)%nat
  /\ forall fuel rest,
       (depth v < fuel)%nat -> delimited rest = true ->
       Json.parse_value rt fuel (text ++ rest) = Some (v, rest).

Definition separator_space (indent : option nat) (level : nat) : pystr :=
  match indent with
  | Some _ => Json.newline_indent indent level
  | None => [32]
  end.

(** * Properties *)

(** ** Strings and dictionaries *)

Lemma str_eqb_eq (a b : pystr) : str_eqb a b = true <-> a = b.
Proof.
  revert b; induction a as [|x a IH]; intros [|y b]; simpl; split; intro H;
    try reflexivity; try discriminate.
  - apply andb_true_iff in H as [Hx Hab].
    apply N.eqb_eq in Hx. apply IH in Hab. congruence.
  - injection H as -> ->. rewrite N.eqb_refl. simpl. now apply IH.
Qed.

Lemma str_eqb_refl (a : pystr) : str_eqb a a = true.
Proof. now apply str_eqb_eq. Qed.

Lemma str_eqb_neq (a b : pystr) : str_eqb a b = false <-> a <> b.
Proof.
  split.
  - intros H E. apply str_eqb_eq in E. congruence.
  - intros H. destruct (str_eqb a b) eqn:E; [|reflexivity].
    apply str_eqb_eq in E. contradiction.
Qed.

Lemma str_eqb_sym (a b : pystr) : str_eqb a b = str_eqb b a.
Proof.
  destruct (str_eqb b a) eqn:E.
  - apply str_eqb_eq in E. subst. apply str_eqb_refl.
  - apply str_eqb_neq. apply str_eqb_neq in E. congruence.
Qed.

Section DictFacts.
Context {V : Type}.
Implicit Types (d : list (pystr * V)) (k : pystr) (v : V).

Lemma get_set_same d k v : Dict.get (Dict.set d k v) k = Some v.
Proof.
  induction d as [|[k' v'] d IH]; simpl.
  - now rewrite str_eqb_refl.
  - destruct (str_eqb k k') eqn:E; simpl; rewrite E; [reflexivity | exact IH].
Qed.

Lemma get_set_other d k k' v : k <> k' -> Dict.get (Dict.set d k v) k' = Dict.get d k'.
Proof.
  intros Hne. induction d as [|[k0 v0] d IH]; simpl.
  - apply not_eq_sym, str_eqb_neq in Hne. now rewrite Hne.
  - destruct (str_eqb k k0) eqn:E; simpl.
    + apply str_eqb_eq in E. subst k0.
      apply not_eq_sym, str_eqb_neq in Hne. now rewrite Hne.
    + now rewrite IH.
Qed.

(** The keys after an assignment do not depend on the value assigned. *)
Lemma keys_set_any {W : Type} d (e : list (pystr * W)) k v (w : W) :
  Dict.keys d = Dict.keys e -> Dict.keys (Dict.set d k v) = Dict.keys (Dict.set e k w).
Proof.
  revert e; induction d as [|[k0 v0] d IH]; intros [|[k1 w1] e]; simpl;
    try discriminate; intros H.
  - reflexivity.
  - injection H as -> H. destruct (str_eqb k k1); simpl.
    + now rewrite H.
    + f_equal. now apply IH.
Qed.

Lemma keys_set_present d k v : In k (Dict.keys d) -> Dict.keys (Dict.set d k v) = Dict.keys d.
Proof.
  induction d as [|[k0 v0] d IH]; simpl; [tauto|].
  intros [->|H].
  - now rewrite str_eqb_refl.
  - destruct (str_eqb k k0); simpl; [reflexivity|]. now rewrite IH.
Qed.

Lemma in_keys_get d k : In k (Dict.keys d) <-> exists v, Dict.get d k = Some v.
Proof.
  induction d as [|[k0 v0] d IH]; simpl.
  - split; [tauto | intros [v H]; discriminate].
  - destruct (str_eqb k k0) eqn:E.
    + apply str_eqb_eq in E. subst. split; eauto.
    + apply str_eqb_neq in E. rewrite <- IH. split; [intros [?|?] | intros ?]; auto; congruence.
Qed.

Lemma get_none_not_in d k : Dict.get d k = None <-> ~ In k (Dict.keys d).
Proof.
  rewrite in_keys_get. split.
  - intros H [v Hv]. congruence.
  - intros H. destruct (Dict.get d k) eqn:E; [|reflexivity]. exfalso; eauto.
Qed.

Lemma keys_set_absent d k v : ~ In k (Dict.keys d) -> Dict.keys (Dict.set d k v) = Dict.keys d ++ [k].
Proof.
  induction d as [|[k0 v0] d IH]; simpl; [reflexivity|].
  intros H. destruct (str_eqb k k0) eqn:E.
  - apply str_eqb_eq in E. subst. tauto.
  - simpl. rewrite IH; tauto.
Qed.

Lemma keys_set_nodup d k v : NoDup (Dict.keys d) -> NoDup (Dict.keys (Dict.set d k v)).
Proof.
  intros H. destruct (in_dec (list_eq_dec N.eq_dec) k (Dict.keys d)) as [Hin|Hout].
  - now rewrite keys_set_present.
  - rewrite keys_set_absent by assumption.
    apply NoDup_app; [assumption | repeat constructor; simpl; tauto |].
    intros x Hx [<-|[]]. contradiction.
Qed.

End DictFacts.

(** ** The research store *)

Section StoreFacts.
Import ResearchDataStore StoreOps.

Lemma run_from_app self ops ops' :
  run_from self (ops ++ ops') = run_from (run_from self ops) ops'.
Proof. unfold run_from. apply fold_left_app. Qed.

Lemma run_snoc ops o : run (ops ++ [o]) = fst (exec (run ops) o).
Proof. unfold run. now rewrite run_from_app. Qed.

(** Both dictionaries of a store list the same keys in the same order. *)
Lemma keys_aligned ops : Dict.keys (data (run ops)) = Dict.keys (timestamps (run ops)).
Proof.
  induction ops as [|o ops IH] using rev_ind; [reflexivity|].
  rewrite run_snoc. destruct o; simpl; try exact IH.
  now apply keys_set_any.
Qed.

Lemma untouched_key self ops k :
  existsb (stores_key k) ops = false ->
  Dict.get (data (run_from self ops)) k = Dict.get (data self) k.
Proof.
  revert self; induction ops as [|o ops IH]; intros self H; [reflexivity|].
  simpl in H. apply orb_false_iff in H as [Ho Hops].
  change (run_from self (o :: ops)) with (run_from (fst (exec self o)) ops).
  rewrite (IH _ Hops). destruct o; simpl in *; try reflexivity.
  apply get_set_other. now apply str_eqb_neq.
Qed.

(** C4: storing [v] under [k] and then retrieving [k] gives [v] back, whatever
    the store held and whatever [v] is made of. *)
Theorem store_then_retrieve (now : Z) (self : t) (k : pystr) (v : pyval) :
  retrieve (store now self k v) k = v.
Proof. unfold retrieve, store; simpl. now rewrite get_set_same. Qed.



(** C6: after any sequence of calls none of which stores under [k],
    [retrieve k] returns [None]; [retrieve] is a total function, there is no
    exception it could raise. *)
Theorem retrieve_unknown_key (ops : list op) (k : pystr) :
  existsb (stores_key k) ops = false -> retrieve (run ops) k = PyNone.
Proof.
  intros H. unfold retrieve, run. now rewrite (untouched_key _ _ _ H).
Qed.

Lemma retrieve_unknown_key_witness :
  retrieve (run [Store 5 (py "a") (PyInt 1); Retrieve (py "b"); GetAllKeys;
                 Store 7 (py "c") PyNone]) (py "b") = PyNone.
Proof. apply retrieve_unknown_key. vm_compute. reflexivity. Defined.

(** C10: after any sequence of the public calls, the value dictionary and the
    timestamp dictionary have the same keys (in the same order, even), and
    every key [get_all_keys] returns has a timestamp. *)
Theorem keys_have_timestamps (ops : list op) :
  Dict.keys (data (run ops)) = Dict.keys (timestamps (run ops))
  /\ (forall k, In k (Dict.keys (data (run ops))) <-> In k (Dict.keys (timestamps (run ops))))
  /\ (forall k, In k (get_all_keys (run ops)) ->
        exists ts, Dict.get (timestamps (run ops)) k = Some ts).
Proof.
  pose proof (keys_aligned ops) as E. split; [exact E|]. split.
  - intros k. now rewrite E.
  - intros k Hk. apply in_keys_get. unfold get_all_keys in Hk. now rewrite <- E.
Qed.

Lemma keys_have_timestamps_witness :
  exists ts,
    Dict.get (timestamps (run [Store 5 (py "a") (PyInt 1); GetRecent 9 60;
                               Store 7 (py "b") PyNone; Store 8 (py "a") PyNone]))
             (py "a") = Some ts.
Proof.
  apply (keys_have_timestamps
           [Store 5 (py "a") (PyInt 1); GetRecent 9 60;
            Store 7 (py "b") PyNone; Store 8 (py "a") PyNone]).
  vm_compute. left. reflexivity.
Defined.

Lemma timedelta_unbound : name_defined module_globals (py "timedelta") = false.
Proof. vm_compute. reflexivity. Qed.

(** C1, what the code does: the module never binds the name [timedelta], so
    every call of [get_recent] raises [NameError], whatever the store holds
    and whatever window is asked for. *)
Theorem get_recent_raises (now : Z) (self : t) (minutes : Z) :
  get_recent now self minutes
  = inl {| err_cls := NameError; err_msg := py "name 'timedelta' is not defined" |}.
Proof.
  unfold get_recent, get_recent_in.
  rewrite timedelta_unbound. reflexivity.
Qed.

Lemma keys_nodup ops : NoDup (Dict.keys (timestamps (run ops))).
Proof.
  induction ops as [|o ops IH] using rev_ind; [constructor|].
  rewrite run_snoc. destruct o; simpl; try exact IH.
  now apply keys_set_nodup.
Qed.

(** The loop of [get_recent] on well-formed dictionaries: it ends without
    [KeyError], and it adds to [recent_data] the entries whose timestamp is
    after the cutoff. *)
Lemma collect_recent_spec (values : list (pystr * pyval)) (cutoff : Z) :
  forall (items : list (pystr * Z)) (recent : list (pystr * pyval)),
    NoDup (Dict.keys items) ->
    (forall k, In k (Dict.keys items) -> exists v, Dict.get values k = Some v) ->
    exists r,
      collect_recent values cutoff items recent = inr r
      /\ forall k,
           Dict.get r k =
           match Dict.get items k with
           | Some ts => if (cutoff <? ts)%Z then Dict.get values k else Dict.get recent k
           | None => Dict.get recent k
           end.
Proof.
  induction items as [|[k0 ts0] items IH]; intros recent Hnd Hval; simpl.
  - eexists; split; [reflexivity | reflexivity].
  - inversion Hnd as [|? ? Hnotin Hnd']; subst.
    destruct (Hval k0 (or_introl eq_refl)) as [v0 Hv0].
    assert (Hval' : forall k, In k (Dict.keys items) -> exists v, Dict.get values k = Some v)
      by (intros k Hk; apply Hval; now right).
    destruct (cutoff <? ts0)%Z eqn:Hcut.
    + rewrite Hv0.
      destruct (IH (Dict.set recent k0 v0) Hnd' Hval') as [r [Hr Hget]].
      exists r; split; [exact Hr|]. intros k. rewrite Hget.
      destruct (str_eqb k k0) eqn:E.
      * apply str_eqb_eq in E; subst k.
        apply get_none_not_in in Hnotin. rewrite Hnotin, Hcut, get_set_same. now rewrite Hv0.
      * apply str_eqb_neq in E.
        rewrite get_set_other by congruence. reflexivity.
    + destruct (IH recent Hnd' Hval') as [r [Hr Hget]].
      exists r; split; [exact Hr|]. intros k. rewrite Hget.
      destruct (str_eqb k k0) eqn:E; [|reflexivity].
      apply str_eqb_eq in E; subst k.
      apply get_none_not_in in Hnotin. now rewrite Hnotin, Hcut.
Qed.

(** What the method is written to do: in a module that does bind
    [timedelta], [get_recent] returns exactly the entries stored strictly
    after [now - minutes]. *)
Lemma get_recent_in_window (globals : list pystr) (ops : list op) (now minutes : Z) :
  name_defined globals (py "timedelta") = true ->
  exists r,
    get_recent_in globals now (run ops) minutes = inr r
    /\ forall k v,
         Dict.get r k = Some v <->
         Dict.get (data (run ops)) k = Some v
         /\ exists ts, Dict.get (timestamps (run ops)) k = Some ts
                       /\ (now - timedelta_minutes minutes < ts)%Z.
Proof.
  intros Hdef. unfold get_recent_in. rewrite Hdef.
  destruct (collect_recent_spec (data (run ops)) (now - timedelta_minutes minutes)
              (timestamps (run ops)) [] (keys_nodup ops)) as [r [Hr Hget]].
  { intros k Hk. apply in_keys_get. now rewrite keys_aligned. }
  exists r; split; [exact Hr|]. intros k v. rewrite Hget.
  destruct (Dict.get (timestamps (run ops)) k) as [ts|] eqn:Hts.
  - destruct (now - timedelta_minutes minutes <? ts)%Z eqn:Hcut.
    + apply Z.ltb_lt in Hcut. split.
      * intros H. split; [exact H|]. exists ts. now split.
      * now intros [H _].
    + apply Z.ltb_ge in Hcut. simpl. split; [discriminate|].
      intros [_ [ts' [E Hlt]]]. injection E as <-. lia.
  - simpl. split; [discriminate|]. intros [_ [ts' [E _]]]. discriminate.
Qed.

End StoreFacts.

(** ** Encoded strings decode

    What [json.dumps] writes for a string, [json.loads] reads as a string,
    whatever code points it holds. *)

Section ScanFacts.
Import Json.

Lemma all_below_spec (P : N -> bool) (fuel : nat) :
  forall i, all_below P fuel i = true ->
  forall z, i <= z -> z < i + N.of_nat fuel -> P z = true.
Proof.
  induction fuel as [|f IH]; intros i H z Hlo Hhi.
  - simpl in Hhi. lia.
  - simpl in H. apply andb_true_iff in H as [Hi Hrest].
    destruct (N.eq_dec z i) as [->|Hne]; [exact Hi|].
    apply (IH (N.succ i) Hrest); lia.
Qed.

Lemma all_below_N (P : N -> bool) (n : N) :
  all_below P (N.to_nat n) 0 = true -> forall z, z < n -> P z = true.
Proof.
  intros H z Hz. apply (all_below_spec P (N.to_nat n) 0 H); [lia|].
  rewrite N2Nat.id. lia.
Qed.

Lemma hex4_table : all_below hex4_reads_back (N.to_nat 65536) 0 = true.
Proof. vm_compute. reflexivity. Qed.

Lemma read_hex4_hex4 (n : N) (rest : pystr) :
  n < 65536 -> read_hex4 (hex4 n ++ rest) = Some (n, rest).
Proof.
  intros Hn.
  assert (H : hex4_reads_back n = true).
  { apply (all_below_N _ 65536 hex4_table). exact Hn. }
  unfold hex4_reads_back in H. unfold hex4 in *. simpl in *.
  destruct (hex_val (hex_digit (n / 4096 mod 16))); [|discriminate].
  destruct (hex_val (hex_digit (n / 256 mod 16))); [|discriminate].
  destruct (hex_val (hex_digit (n / 16 mod 16))); [|discriminate].
  destruct (hex_val (hex_digit (n mod 16))); [|discriminate].
  apply N.eqb_eq in H. now rewrite H.
Qed.

Lemma surrogate_table :
  all_below high_half_ok (N.to_nat 1024) 0 = true
  /\ all_below low_half_ok (N.to_nat 1024) 0 = true.
Proof. split; vm_compute; reflexivity. Qed.

Lemma land_1023_small (x : N) : N.land x 1023 < 1024.
Proof.
  change 1023 with (N.ones 10). rewrite N.land_ones.
  apply N.mod_lt. discriminate.
Qed.

Lemma high_half (x : N) :
  let s := N.lor 55296 (N.land x 1023) in
  s < 65536 /\ is_high_surrogate s = true /\ is_low_surrogate s = false.
Proof.
  pose proof (land_1023_small x) as Hx.
  assert (H : high_half_ok (N.land x 1023) = true).
  { apply (all_below_N _ 1024 (proj1 surrogate_table)). exact Hx. }
  unfold high_half_ok in H. cbv zeta in *.
  apply andb_true_iff in H as [H Hl]. apply andb_true_iff in H as [Hs Hh].
  apply N.ltb_lt in Hs. apply negb_true_iff in Hl.
  split; [exact Hs | split; [exact Hh | exact Hl]].
Qed.

Lemma low_half (x : N) :
  let s := N.lor 56320 (N.land x 1023) in
  s < 65536 /\ is_low_surrogate s = true.
Proof.
  pose proof (land_1023_small x) as Hx.
  assert (H : low_half_ok (N.land x 1023) = true).
  { apply (all_below_N _ 1024 (proj2 surrogate_table)). exact Hx. }
  unfold low_half_ok in H. cbv zeta in *.
  apply andb_true_iff in H as [Hs Hl]. apply N.ltb_lt in Hs.
  split; [exact Hs | exact Hl].
Qed.

End ScanFacts.

Section ScanString.
Import Json.

Lemma escape_cons (c : N) (m : pystr) :
  escape true (c :: m) = escape_char_ascii c ++ escape true m.
Proof. reflexivity. Qed.

(** The four shapes an escaped character can have. *)
Lemma escape_char_ascii_shape (c : N) :
  (exists e d, escape_char_ascii c = [92; e] /\ (e =? 117) = false /\ unescape e = Some d)
  \/ (escape_char_ascii c = [c] /\ (c =? 34) = false /\ (c =? 92) = false /\ (c <? 32) = false)
  \/ (c < 65536 /\ escape_char_ascii c = 92 :: 117 :: hex4 c)
  \/ (exists s1 s2,
        escape_char_ascii c = (92 :: 117 :: hex4 s1) ++ (92 :: 117 :: hex4 s2)
        /\ s1 < 65536 /\ s2 < 65536
        /\ is_high_surrogate s1 = true /\ is_low_surrogate s1 = false
        /\ is_low_surrogate s2 = true).
Proof.
  unfold escape_char_ascii, short_escape.
  destruct (c =? 34) eqn:E34; [left; exists 34, 34; repeat split|].
  destruct (c =? 92) eqn:E92; [left; exists 92, 92; repeat split|].
  destruct (c =? 10) eqn:E10; [left; exists 110, 10; repeat split|].
  destruct (c =? 13) eqn:E13; [left; exists 114, 13; repeat split|].
  destruct (c =? 9) eqn:E9; [left; exists 116, 9; repeat split|].
  destruct (c =? 12) eqn:E12; [left; exists 102, 12; repeat split|].
  destruct (c =? 8) eqn:E8; [left; exists 98, 8; repeat split|].
  destruct ((32 <=? c) && (c <=? 126)) eqn:Eprint.
  - right; left. apply andb_true_iff in Eprint as [Hlo _].
    apply N.leb_le in Hlo. repeat split. apply N.ltb_ge. exact Hlo.
  - destruct (c <? 65536) eqn:Ebmp.
    + right; right; left. apply N.ltb_lt in Ebmp. split; [exact Ebmp | reflexivity].
    + right; right; right.
      destruct (high_half (N.shiftr (c - 65536) 10)) as (Hs1 & Hh1 & Hl1).
      destruct (low_half (c - 65536)) as (Hs2 & Hl2).
      eexists _, _. split; [reflexivity|]. repeat split; assumption.
Qed.

Lemma scan_short (f : nat) (e d : N) (r acc : pystr) :
  (e =? 117) = false -> unescape e = Some d ->
  scan_string (S f) (92 :: e :: r) acc = scan_string f r (d :: acc).
Proof.
  intros He Hd. cbn [scan_string N.eqb Pos.eqb]. now rewrite He, Hd.
Qed.

Lemma scan_plain (f : nat) (c : N) (r acc : pystr) :
  (c =? 34) = false -> (c =? 92) = false -> (c <? 32) = false ->
  scan_string (S f) (c :: r) acc = scan_string f r (c :: acc).
Proof.
  intros H34 H92 H32. cbn [scan_string]. now rewrite H34, H92, H32.
Qed.

Lemma scan_u_single (f : nat) (cp : N) (r acc : pystr) :
  cp < 65536 -> is_high_surrogate cp && startswith [92; 117] r = false ->
  scan_string (S f) (92 :: 117 :: hex4 cp ++ r) acc = scan_string f r (cp :: acc).
Proof.
  intros Hcp Hno. cbn [scan_string N.eqb Pos.eqb].
  rewrite read_hex4_hex4 by exact Hcp. now rewrite Hno.
Qed.

Lemma scan_u_not_low (f : nat) (cp cp2 : N) (r acc : pystr) :
  cp < 65536 -> cp2 < 65536 -> is_low_surrogate cp2 = false ->
  scan_string (S f) (92 :: 117 :: hex4 cp ++ 92 :: 117 :: hex4 cp2 ++ r) acc
  = scan_string f (92 :: 117 :: hex4 cp2 ++ r) (cp :: acc).
Proof.
  intros Hcp Hcp2 Hlow. cbn [scan_string N.eqb Pos.eqb].
  rewrite read_hex4_hex4 by exact Hcp.
  destruct (is_high_surrogate cp); cbn [andb startswith N.eqb Pos.eqb skipn]; [|reflexivity].
  rewrite read_hex4_hex4 by exact Hcp2. now rewrite Hlow.
Qed.

Lemma scan_u_pair (f : nat) (cp cp2 : N) (r acc : pystr) :
  cp < 65536 -> cp2 < 65536 ->
  is_high_surrogate cp = true -> is_low_surrogate cp2 = true ->
  scan_string (S f) (92 :: 117 :: hex4 cp ++ 92 :: 117 :: hex4 cp2 ++ r) acc
  = scan_string f r (join_surrogates cp cp2 :: acc).
Proof.
  intros Hcp Hcp2 Hhigh Hlow. cbn [scan_string N.eqb Pos.eqb].
  rewrite read_hex4_hex4 by exact Hcp.
  rewrite Hhigh. cbn [andb startswith N.eqb Pos.eqb skipn].
  rewrite read_hex4_hex4 by exact Hcp2. now rewrite Hlow.
Qed.

Lemma no_pair_after_short (e : N) (r : pystr) :
  (e =? 117) = false -> startswith [92; 117] (92 :: e :: r) = false.
Proof.
  intros H. change (startswith [92; 117] (92 :: e :: r)) with ((92 =? 92) && ((117 =? e) && true)).
  now rewrite (N.eqb_sym 117 e), H.
Qed.

Lemma no_pair_after_plain (c : N) (r : pystr) :
  (c =? 92) = false -> startswith [92; 117] (c :: r) = false.
Proof.
  intros H. change (startswith [92; 117] (c :: r)) with ((92 =? c) && startswith [117] r).
  now rewrite (N.eqb_sym 92 c), H.
Qed.

Lemma hex4_length (n : N) : length (hex4 n) = 4%nat.
Proof. reflexivity. Qed.

(** The scanner reads an escaped string up to the quote that closes it. *)
Lemma scan_escaped (rest : pystr) :
  forall (n : nat) (msg : pystr), (length msg <= n)%nat ->
  forall (fuel : nat) (acc : pystr), (length (escape true msg) < fuel)%nat ->
  exists out, scan_string fuel (escape true msg ++ 34 :: rest) acc = Some (out, rest).
Proof.
  induction n as [|n IH]; intros msg Hlen fuel acc Hfuel.
  - destruct msg; [|simpl in Hlen; lia].
    destruct fuel; [simpl in Hfuel; lia|]. eexists. reflexivity.
  - destruct msg as [|c m].
    { destruct fuel; [simpl in Hfuel; lia|]. eexists. reflexivity. }
    simpl in Hlen. rewrite escape_cons in *. rewrite length_app in Hfuel.
    destruct fuel as [|f]; [lia|]. rewrite <- app_assoc.
    assert (IHm : forall f' acc', (length (escape true m) < f')%nat ->
              exists out, scan_string f' (escape true m ++ 34 :: rest) acc' = Some (out, rest))
      by (intros; apply IH; [lia | assumption]).
    destruct (escape_char_ascii_shape c)
      as [(e & d & He & Hu & Hd) | [(He & H34 & H92 & H32) | [(Hc & He) | Hpair]]].
    + rewrite He in *. cbn [app length] in *.
      rewrite (scan_short _ _ _ _ _ Hu Hd). apply IHm. lia.
    + rewrite He in *. cbn [app length] in *.
      rewrite (scan_plain _ _ _ _ H34 H92 H32). apply IHm. lia.
    + rewrite He in *. cbn [app length] in *. rewrite hex4_length in Hfuel.
      destruct m as [|c2 m'].
      { cbn [escape flat_map app]. rewrite scan_u_single; [|exact Hc|].
        - apply (IHm f (c :: acc)). simpl. lia.
        - rewrite no_pair_after_plain by reflexivity. apply andb_false_r. }
      pose proof (IHm f (c :: acc)) as IHsame.
      rewrite escape_cons in *. rewrite length_app in *. rewrite <- app_assoc in *.
      destruct (escape_char_ascii_shape c2)
        as [(e2 & d2 & He2 & Hu2 & Hd2) | [(He2 & H34' & H92' & H32') | [(Hc2 & He2) | Hpair2]]].
      * rewrite He2 in *. cbn [app length] in *.
        rewrite scan_u_single; [|exact Hc|].
        -- apply IHsame. lia.
        -- rewrite (no_pair_after_short _ _ Hu2). apply andb_false_r.
      * rewrite He2 in *. cbn [app length] in *.
        rewrite scan_u_single; [|exact Hc|].
        -- apply IHsame. lia.
        -- rewrite (no_pair_after_plain _ _ H92'). apply andb_false_r.
      * rewrite He2 in *. cbn [app length] in *. rewrite hex4_length in *.
        destruct (is_low_surrogate c2) eqn:Hlow2.
        -- destruct (is_high_surrogate c) eqn:Hhigh.
           ++ rewrite (scan_u_pair _ _ _ _ _ Hc Hc2 Hhigh Hlow2).
              apply IH; [simpl in Hlen; lia | lia].
           ++ rewrite scan_u_single; [|exact Hc|now rewrite Hhigh].
              apply IHsame. lia.
        -- rewrite (scan_u_not_low _ _ _ _ _ Hc Hc2 Hlow2). apply IHsame. lia.
      * destruct Hpair2 as (s1 & s2 & He2 & Hs1 & Hs2 & Hh1 & Hl1 & Hl2).
        rewrite He2 in *. cbn [app length] in *. rewrite <- app_assoc in *.
        cbn [app] in *. rewrite length_app in *. cbn [length] in *.
        rewrite !hex4_length in *.
        rewrite (scan_u_not_low _ _ _ _ _ Hc Hs1 Hl1). apply IHsame. lia.
    + destruct Hpair as (s1 & s2 & He & Hs1 & Hs2 & Hh1 & Hl1 & Hl2).
      rewrite He in *. cbn [app length] in *. rewrite <- app_assoc in *.
      cbn [app] in *. rewrite length_app in *. cbn [length] in *.
      rewrite !hex4_length in *.
      rewrite (scan_u_pair _ _ _ _ _ Hs1 Hs2 Hh1 Hl2). apply IHm. lia.
Qed.

(** The text [json.dumps] writes for [{"error": msg}] parses back to an
    object whose only key is ["error"]. *)
Lemma scan_key (tail : pystr) :
  scan_string (S (length (py "error" ++ 34 :: tail))) (py "error" ++ 34 :: tail) [] = Some (py "error", tail).
Proof. reflexivity. Qed.

Lemma parse_members_single (pv : pystr -> option (pyval * pystr)) (f : nat)
  (r k r2 r4 : pystr) (v : pyval) :
  scan_string (S (length r)) r [] = Some (k, 58 :: 32 :: r2) ->
  skip_ws r2 = r2 ->
  pv r2 = Some (v, 125 :: r4) ->
  parse_members pv (S f) (34 :: r) [] = Some (PyDict [(k, v)], r4).
Proof.
  intros Hk Hws Hv.
  cbn [parse_members N.eqb Pos.eqb]. rewrite Hk.
  change (skip_ws (58 :: 32 :: r2)) with (58 :: 32 :: r2).
  cbn [N.eqb Pos.eqb].
  change (skip_ws (32 :: r2)) with (skip_ws r2). rewrite Hws, Hv.
  reflexivity.
Qed.

Lemma parse_error_object rt (f : nat) (body out rest : pystr) :
  scan_string (S (length body)) body [] = Some (out, 125 :: rest) ->
  parse_value rt (S (S f)) (123 :: 34 :: py "error" ++ 34 :: 58 :: 32 :: 34 :: body)
  = Some (PyDict [(py "error", PyStr out)], rest).
Proof.
  intros Hbody.
  change (parse_value rt (S (S f)) (123 :: 34 :: py "error" ++ 34 :: 58 :: 32 :: 34 :: body))
    with (parse_members (parse_value rt (S f))
            (S (length (34 :: py "error" ++ 34 :: 58 :: 32 :: 34 :: body)))
            (34 :: py "error" ++ 34 :: 58 :: 32 :: 34 :: body) []).
  apply (parse_members_single _ _ _ (py "error") (34 :: body) rest (PyStr out)).
  - apply scan_key.
  - reflexivity.
  - change (parse_value rt (S f) (34 :: body))
      with (match scan_string (S (length body)) body [] with
            | Some (str, r') => Some (PyStr str, r')
            | None => None
            end).
    now rewrite Hbody.
Qed.

Lemma error_text_shape (msg : pystr) :
  123 :: encode_str true (py "error") ++ [58; 32] ++ encode_str true msg ++ [125]
  = 123 :: 34 :: py "error" ++ 34 :: 58 :: 32 :: 34 :: (escape true msg ++ [34; 125]).
Proof.
  unfold encode_str.
  change (escape true (py "error")) with (py "error").
  cbn [app]. rewrite <- !app_assoc. reflexivity.
Qed.

Lemma error_payload_parses rt (msg : pystr) :
  exists out,
    Json.loads rt (123 :: encode_str true (py "error") ++ [58; 32] ++ encode_str true msg ++ [125])
    = Some (PyDict [(py "error", PyStr out)]).
Proof.
  destruct (scan_escaped [125] (length msg) msg (le_n _)
              (S (length (escape true msg ++ [34; 125]))) []) as [out Hout].
  { rewrite length_app. simpl. lia. }
  exists out. rewrite error_text_shape. unfold loads.
  change (skip_ws (123 :: ?x)) with (123 :: x).
  change (S (length (123 :: ?l))) with (S (S (length l))).
  now rewrite (parse_error_object rt _ _ out [] Hout).
Qed.

Lemma dumps_error_payload rt (msg : pystr) :
  Json.dumps rt None true (FastMCPTool.error_payload msg)
  = inr (123 :: encode_str true (py "error") ++ [58; 32] ++ encode_str true msg ++ [125]).
Proof. reflexivity. Qed.

Lemma error_payload_has_error_key rt (msg : pystr) :
  exists out,
    Json.dumps rt None true (FastMCPTool.error_payload msg) = inr out
    /\ has_error_key rt out = true.
Proof.
  eexists. split; [apply dumps_error_payload|].
  unfold has_error_key. destruct (error_payload_parses rt msg) as [m ->]. reflexivity.
Qed.

End ScanString.

(** ** The adapter *)

(** One [except] clause: print the line, return the error object. *)
Ltac handler_returns rt msg :=
  let out := fresh "out" in
  let Hd := fresh "Hd" in
  let Hk := fresh "Hk" in
  destruct (error_payload_has_error_key rt msg) as [out [Hd Hk]];
  exists out; eexists; unfold bind, print, lift; rewrite Hd;
  split; [reflexivity | exact Hk].

Section AdapterFacts.
Import FastMCPTool.
Variable rt : PyRuntime.
Variable server : http_request -> http_outcome.

(** Either handler prints one line and returns an error object. *)
Lemma run_except_returns (e : exn) (w : world) :
  exists out line,
    _run_except rt e w = (inr out, printed w line) /\ has_error_key rt out = true.
Proof.
  unfold _run_except.
  destruct (is_RequestException e).
  - handler_returns rt (py "MCP server request failed: " ++ err_msg e).
  - handler_returns rt (py "Unexpected error accessing MCP server: " ++ err_msg e).
Qed.

(** The body of the [try] on its two paths. *)
Lemma run_try_simulated self endpoint method params data w :
  simulated self endpoint = true ->
  _run_try rt server self endpoint method params data w
  = (_simulate_mcp_response rt self endpoint method params data, w).
Proof. intros H. unfold _run_try. rewrite H. reflexivity. Qed.

Lemma run_try_live self endpoint method params data w :
  simulated self endpoint = false ->
  _run_try rt server self endpoint method params data w
  = (match server (live_request rt self endpoint method params data) with
     | Fails e => inl e
     | Responds response =>
       _ <~ Requests.raise_for_status response ;;
       result <~ Requests.json rt response ;;
       Json.dumps rt (Some 2%nat) false result
     end,
     requested w (live_request rt self endpoint method params data)).
Proof.
  intros H. unfold _run_try. rewrite H.
  unfold bind, session_request, lift. fold (live_request rt self endpoint method params data).
  fold (requested w (live_request rt self endpoint method params data)).
  destruct (server (live_request rt self endpoint method params data)) as [e|response];
    [reflexivity|].
  destruct (Requests.raise_for_status response) as [e|[]]; [reflexivity|].
  destruct (Requests.json rt response) as [e|result]; reflexivity.
Qed.

(** What [_run] leaves in the world: the world of the [try] body, plus one
    printed line when the body raised. *)
Lemma run_world self endpoint method params data w :
  let body := _run_try rt server self endpoint method params data w in
  exists out,
    fst (_run rt server self endpoint method params data w) = inr out
    /\ sent (snd (_run rt server self endpoint method params data w)) = sent (snd body)
    /\ clock (snd (_run rt server self endpoint method params data w)) = clock (snd body)
    /\ match fst body with
       | inr s => out = s
       | inl _ => has_error_key rt out = true
       end.
Proof.
  intros body. unfold _run, try_except. fold body.
  destruct body as [[e|s] w1]; simpl.
  - destruct (run_except_returns e w1) as (out & line & -> & Hk).
    exists out. simpl. auto.
  - exists s. auto.
Qed.

Lemma simulated_iff self endpoint :
  simulated self endpoint = true <->
  contains (py "demo") endpoint = true \/ base_url self = py "http://localhost:8000".
Proof.
  unfold simulated. rewrite orb_true_iff, str_eqb_eq. reflexivity.
Qed.

(** What [_run] sends: nothing on the simulation path, one request on the
    live path. *)
Lemma run_sent self endpoint method params data w :
  sent (snd (_run rt server self endpoint method params data w))
  = if simulated self endpoint then sent w
    else sent w ++ [live_request rt self endpoint method params data].
Proof.
  destruct (run_world self endpoint method params data w) as (out & _ & Hs & _).
  rewrite Hs. destruct (simulated self endpoint) eqn:E.
  - now rewrite run_try_simulated.
  - now rewrite run_try_live.
Qed.


(** C3: [_run] takes the simulation path, and sends nothing, exactly when the
    endpoint contains ["demo"] or the normalised base URL is
    ["http://localhost:8000"]; otherwise it hands one request to the session:
    the upper-cased method, the URL under the base URL, a timeout of 30. *)
Theorem run_branch self endpoint method params data w :
  (contains (py "demo") endpoint = true \/ base_url self = py "http://localhost:8000" ->
     _run_try rt server self endpoint method params data w
     = (_simulate_mcp_response rt self endpoint method params data, w)
     /\ sent (snd (_run rt server self endpoint method params data w)) = sent w)
  /\ (~ (contains (py "demo") endpoint = true \/ base_url self = py "http://localhost:8000") ->
      sent (snd (_run rt server self endpoint method params data w))
      = sent w ++ [live_request rt self endpoint method params data])
  /\ (sent (snd (_run rt server self endpoint method params data w)) = sent w <->
      contains (py "demo") endpoint = true \/ base_url self = py "http://localhost:8000").
Proof.
  rewrite <- simulated_iff, run_sent.
  destruct (simulated self endpoint) eqn:E.
  - split; [intros _; split; [now apply run_try_simulated | reflexivity]|].
    split; [intros H; now elim H | tauto].
  - split; [discriminate|]. split; [reflexivity|]. split; [|discriminate].
    intros H. apply (f_equal (@length _)) in H. rewrite length_app in H. simpl in H. lia.
Qed.

End AdapterFacts.



Lemma run_branch_witness :
  let local := FastMCPTool.__init__ (py "http://localhost:8000/") None in
  let remote := FastMCPTool.__init__ (py "http://example.com/api/") None in
  (FastMCPTool._run_try example_runtime refusing_server local (py "news") (py "GET")
     PyNone PyNone fresh_world
   = (FastMCPTool._simulate_mcp_response example_runtime local (py "news") (py "GET")
        PyNone PyNone, fresh_world)
   /\ sent (snd (FastMCPTool._run example_runtime refusing_server local (py "news") (py "GET")
                   PyNone PyNone fresh_world)) = sent fresh_world)
  /\ sent (snd (FastMCPTool._run example_runtime refusing_server remote (py "news") (py "GET")
                  PyNone PyNone fresh_world))
     = sent fresh_world
         ++ [live_request example_runtime remote (py "news") (py "GET") PyNone PyNone].
Proof.
  intros local remote. split.
  - apply (run_branch example_runtime refusing_server local (py "news") (py "GET")
             PyNone PyNone fresh_world).
    right. vm_compute. reflexivity.
  - apply (run_branch example_runtime refusing_server remote (py "news") (py "GET")
             PyNone PyNone fresh_world).
    intros [H|H]; vm_compute in H; discriminate.
Defined.

Section SimulationFacts.
Import FastMCPTool.
Variable rt : PyRuntime.
Variable server : http_request -> http_outcome.

Lemma weather_default_text :
  exists out,
    Json.dumps rt (Some 2%nat) true (weather_payload default_city) = inr out
    /\ json_field rt out (py "location") = Some (PyStr (py "San Francisco, CA"))
    /\ Forall (fun k => json_field rt out k <> None)
         (map py ["temperature"; "conditions"; "humidity"; "wind_speed"]%string).
Proof.
  eexists. split; [vm_compute; reflexivity|]. split; [vm_compute; reflexivity|].
  repeat constructor; vm_compute; discriminate.
Qed.

Lemma weather_boston_text :
  exists out,
    Json.dumps rt (Some 2%nat) true (weather_payload (PyStr (py "Boston, MA"))) = inr out
    /\ json_field rt out (py "location") = Some (PyStr (py "Boston, MA")).
Proof.
  eexists. split; [vm_compute; reflexivity|]. vm_compute; reflexivity.
Qed.

Lemma run_simulated self endpoint method params data w out :
  simulated self endpoint = true ->
  _simulate_mcp_response rt self endpoint method params data = inr out ->
  _run rt server self endpoint method params data w = (inr out, w).
Proof.
  intros Hsim Hout. unfold _run, try_except.
  rewrite (run_try_simulated rt server _ _ _ _ _ _ Hsim), Hout. reflexivity.
Qed.

(** C7: with the adapter on the simulation branch (its base URL is the
    local placeholder), [_run("weather/forecast", "GET")] without parameters
    returns JSON whose [location] is ["San Francisco, CA"] and which has the
    keys [temperature], [conditions], [humidity] and [wind_speed];
    [_run("weather", "GET", params={"location": "Boston, MA"})] returns JSON
    whose [location] is ["Boston, MA"]; and for every weather endpoint the
    payload that is serialised carries [params["location"]] when there is
    one and the fixed city otherwise. *)
Theorem simulated_weather (self : t) (w : world) :
  base_url self = py "http://localhost:8000" ->
  (exists out,
     _run rt server self (py "weather/forecast") (py "GET") PyNone PyNone w = (inr out, w)
     /\ json_field rt out (py "location") = Some (PyStr (py "San Francisco, CA"))
     /\ Forall (fun k => json_field rt out k <> None)
          (map py ["temperature"; "conditions"; "humidity"; "wind_speed"]%string))
  /\ (exists out,
        _run rt server self (py "weather") (py "GET")
          (PyDict [(py "location", PyStr (py "Boston, MA"))]) PyNone w = (inr out, w)
        /\ json_field rt out (py "location") = Some (PyStr (py "Boston, MA")))
  /\ (forall endpoint method d data,
        contains (py "weather") (lower rt endpoint)
        || contains (py "forecast") (lower rt endpoint) = true ->
        _simulate_mcp_response rt self endpoint method (PyDict d) data
        = Json.dumps rt (Some 2%nat) true
            (weather_payload
               (match Dict.get d (py "location") with
                | Some v => v
                | None => default_city
                end)))
  /\ (forall endpoint method data,
        contains (py "weather") (lower rt endpoint)
        || contains (py "forecast") (lower rt endpoint) = true ->
        _simulate_mcp_response rt self endpoint method PyNone data
        = Json.dumps rt (Some 2%nat) true (weather_payload default_city)).
Proof.
  intros Hbase.
  assert (Hsim : forall endpoint, simulated self endpoint = true).
  { intros endpoint. apply simulated_iff. now right. }
  split; [|split; [|split]].
  - destruct weather_default_text as (out & Hd & Hl & Hk).
    exists out. split; [|split; assumption].
    apply run_simulated; [apply Hsim | exact Hd].
  - destruct weather_boston_text as (out & Hd & Hl).
    exists out. split; [|assumption].
    apply run_simulated; [apply Hsim | exact Hd].
  - intros endpoint method d data Hw. unfold _simulate_mcp_response.
    rewrite Hw. destruct d as [|kv d]; reflexivity.
  - intros endpoint method data Hw. unfold _simulate_mcp_response.
    rewrite Hw. reflexivity.
Qed.

End SimulationFacts.

Lemma simulated_weather_witness :
  let self := FastMCPTool.__init__ (py "http://localhost:8000") None in
  exists out,
    FastMCPTool._run example_runtime refusing_server self (py "weather") (py "GET")
      (PyDict [(py "location", PyStr (py "Boston, MA"))]) PyNone fresh_world
    = (inr out, fresh_world)
    /\ json_field example_runtime out (py "location") = Some (PyStr (py "Boston, MA")).
Proof.
  intros self.
  apply (simulated_weather example_runtime refusing_server self fresh_world).
  vm_compute. reflexivity.
Defined.

(** ** The configuration *)

Lemma rstrip_suffix (c : N) (s : pystr) : exists n, s = rstrip c s ++ repeat c n.
Proof.
  induction s as [|x s [n IH]]; [exists 0%nat; reflexivity|].
  simpl. destruct (rstrip c s) as [|y r] eqn:E.
  - destruct (x =? c) eqn:Ex.
    + apply N.eqb_eq in Ex. subst x. exists (S n). simpl. now rewrite IH at 1.
    + exists n. simpl. now rewrite IH at 1.
  - exists n. simpl. now rewrite IH at 1.
Qed.

Lemma rstrip_no_trailing (c : N) (s p : pystr) : rstrip c s <> p ++ [c].
Proof.
  revert p; induction s as [|x s IH]; intros p; simpl.
  - destruct p; discriminate.
  - destruct (rstrip c s) as [|y r] eqn:E.
    + destruct (x =? c) eqn:Ex.
      * destruct p; discriminate.
      * destruct p as [|a [|b p]]; simpl; try discriminate.
        intros H. injection H as ->. now rewrite N.eqb_refl in Ex.
    + destruct p as [|a p]; simpl; [discriminate|].
      intros H. injection H as -> H. exact (IH p H).
Qed.

Section ConfigurationFacts.
Import FastMCPTool AdvancedMCPTool ToolOps.
Variable rt : PyRuntime.
Variable server : http_request -> http_outcome.

Lemma exec_keeps_base (self : AdvancedMCPTool.t) (c : call) (w : world) :
  base (snd (fst (exec rt server self c w))) = base self.
Proof.
  destruct c; simpl; try reflexivity.
  destruct (_run rt server (base self) endpoint method params data w). reflexivity.
Qed.

Lemma exec_sent (self : AdvancedMCPTool.t) (c : call) (w : world) :
  forall req, In req (sent (snd (exec rt server self c w))) ->
    In req (sent w)
    \/ exists endpoint, req_url req = base_url (base self) ++ py "/" ++ lstrip 47 endpoint.
Proof.
  intros req. destruct c; simpl; auto.
  pose proof (run_sent rt server (base self) endpoint method params data w) as Hs.
  destruct (_run rt server (base self) endpoint method params data w) as [r w'].
  simpl in *. rewrite Hs. destruct (simulated (base self) endpoint); [auto|].
  rewrite in_app_iff. intros [H|[<-|[]]]; [auto|]. right. now exists endpoint.
Qed.

Lemma run_keeps_base (cs : list call) :
  forall (self : AdvancedMCPTool.t) (w : world),
    base (fst (run rt server self cs w)) = base self
    /\ forall req, In req (sent (snd (run rt server self cs w))) ->
         In req (sent w)
         \/ exists endpoint,
              req_url req = base_url (base self) ++ py "/" ++ lstrip 47 endpoint.
Proof.
  induction cs as [|c cs IH]; intros self w; simpl; [auto|].
  pose proof (exec_keeps_base self c w) as Hb.
  pose proof (exec_sent self c w) as Hs.
  destruct (exec rt server self c w) as [[r self'] w']. simpl in Hb, Hs.
  destruct (IH self' w') as [Hb' Hs']. rewrite Hb in *. split; [exact Hb'|].
  intros req Hreq. destruct (Hs' req Hreq) as [H|H]; auto.
Qed.


(** C9: when the attached store holds a falsy value under [k], the store's
    [retrieve] returns that value and [retrieve_research_data] returns the
    "No data found" line; for a truthy value it returns what [json.dumps]
    makes of it (or the failure line when [json.dumps] refuses the value).
    The empty dict, list and string, [0] and [False] are falsy, and their JSON
    texts are not what is returned for them. *)
Theorem falsy_value_reported_missing (self : AdvancedMCPTool.t) (k : pystr) (v : pyval) :
  Dict.get (ResearchDataStore.data (data_store self)) k = Some v ->
  ResearchDataStore.retrieve (data_store self) k = v
  /\ (truthy v = false ->
        retrieve_research_data rt self k = py "❌ No data found for key: " ++ k)
  /\ (truthy v = true ->
        retrieve_research_data rt self k
        = match Json.dumps rt (Some 2%nat) true v with
          | inr s => s
          | inl e => py "❌ Failed to retrieve data: " ++ err_msg e
          end)
  /\ Forall (fun x => truthy x = false
                      /\ exists s, Json.dumps rt (Some 2%nat) true x = inr s
                                   /\ s <> py "❌ No data found for key: " ++ k)
       [PyDict []; PyList []; PyStr []; PyInt 0; PyBool false].
Proof.
  intros Hget.
  assert (Hr : ResearchDataStore.retrieve (data_store self) k = v)
    by (unfold ResearchDataStore.retrieve; now rewrite Hget).
  split; [exact Hr|]. unfold retrieve_research_data. rewrite Hr.
  split; [intros ->; reflexivity|]. split; [intros ->; reflexivity|].
  repeat constructor; eexists; (split; [reflexivity|]); intros H;
    apply (f_equal (hd 0)) in H; vm_compute in H; discriminate.
Qed.

End ConfigurationFacts.



Lemma falsy_value_reported_missing_witness :
  let store := ResearchDataStore.store 5 ResearchDataStore.__init__ (py "empty") (PyDict []) in
  let tool := AdvancedMCPTool.__init__ (py "http://localhost:8000") None (Some store) in
  ResearchDataStore.retrieve store (py "empty") = PyDict []
  /\ AdvancedMCPTool.retrieve_research_data example_runtime tool (py "empty")
     = py "❌ No data found for key: empty".
Proof.
  intros store tool.
  destruct (falsy_value_reported_missing example_runtime tool (py "empty") (PyDict []))
    as (Hr & Hfalsy & _).
  - vm_compute. reflexivity.
  - split; [exact Hr|]. rewrite Hfalsy; reflexivity.
Defined.

(** * Further properties *)

(** ** The store over whole call sequences *)

Section StoreHistoryFacts.
Import ResearchDataStore StoreOps StoreHistory.

Lemma last_write_snoc k ops o :
  last_write k (ops ++ [o])
  = match o with
    | Store now key value => if str_eqb key k then Some (now, value) else last_write k ops
    | _ => last_write k ops
    end.
Proof. unfold last_write. rewrite fold_left_app. reflexivity. Qed.

Lemma keys_in_order_snoc ops o :
  keys_in_order (ops ++ [o])
  = match o with
    | Store _ key _ =>
      if existsb (str_eqb key) (keys_in_order ops)
      then keys_in_order ops else keys_in_order ops ++ [key]
    | _ => keys_in_order ops
    end.
Proof. unfold keys_in_order. rewrite fold_left_app. reflexivity. Qed.

Lemma existsb_str_eqb_in (k : pystr) (l : list pystr) :
  existsb (str_eqb k) l = true <-> In k l.
Proof.
  rewrite existsb_exists. split.
  - intros [x [Hx E]]. apply str_eqb_eq in E. now subst.
  - intros H. exists k. split; [exact H | apply str_eqb_refl].
Qed.

Lemma keys_after_set {V : Type} (d : list (pystr * V)) (k : pystr) (v : V) :
  Dict.keys (Dict.set d k v)
  = if existsb (str_eqb k) (Dict.keys d) then Dict.keys d else Dict.keys d ++ [k].
Proof.
  destruct (existsb (str_eqb k) (Dict.keys d)) eqn:E.
  - apply keys_set_present. now apply existsb_str_eqb_in.
  - apply keys_set_absent. intros H. apply existsb_str_eqb_in in H. congruence.
Qed.

(** X1: after any sequence of calls, [retrieve k] returns the value of the
    last [store] under [k] (or [None] when there was none), and the timestamp
    kept for [k] is the clock reading of that same call. *)
Theorem retrieve_last_write (ops : list op) (k : pystr) :
  retrieve (run ops) k
  = match last_write k ops with
    | Some (_, v) => v
    | None => PyNone
    end
  /\ Dict.get (timestamps (run ops)) k = option_map fst (last_write k ops).
Proof.
  induction ops as [|o ops [IHv IHt]] using rev_ind; [split; reflexivity|].
  rewrite run_snoc, last_write_snoc. destruct o; simpl; try (split; assumption).
  unfold retrieve in *. simpl.
  destruct (str_eqb key k) eqn:E.
  - apply str_eqb_eq in E. subst key. now rewrite !get_set_same.
  - apply str_eqb_neq in E. rewrite !get_set_other by exact E. split; assumption.
Qed.

(** X2: after any sequence of calls, [get_all_keys] lists the keys that were
    stored, each once, in the order in which they were first stored;
    overwriting a key does not move it. *)
Theorem get_all_keys_in_order (ops : list op) :
  get_all_keys (run ops) = keys_in_order ops /\ NoDup (get_all_keys (run ops)).
Proof.
  split.
  - induction ops as [|o ops IH] using rev_ind; [reflexivity|].
    rewrite run_snoc, keys_in_order_snoc. destruct o; simpl; try exact IH.
    unfold get_all_keys in *. simpl. rewrite keys_after_set. now rewrite IH.
  - unfold get_all_keys. rewrite keys_aligned. apply keys_nodup.
Qed.

(** X3: a [store] under one key leaves every other key as it was: the value
    retrieved, the timestamp, and the position among the keys. *)
Theorem store_leaves_other_keys (now : Z) (self : t) (k k' : pystr) (v : pyval) :
  k' <> k ->
  retrieve (store now self k' v) k = retrieve self k
  /\ Dict.get (timestamps (store now self k' v)) k = Dict.get (timestamps self) k
  /\ exists tail, get_all_keys (store now self k' v) = get_all_keys self ++ tail
                  /\ ~ In k tail.
Proof.
  intros Hne. unfold retrieve, store, get_all_keys; simpl.
  rewrite !get_set_other by exact Hne. split; [reflexivity|]. split; [reflexivity|].
  rewrite keys_after_set. destruct (existsb (str_eqb k') (Dict.keys (data self))).
  - exists []. rewrite app_nil_r. auto.
  - exists [k']. split; [reflexivity|]. intros [H|[]]. congruence.
Qed.

Lemma store_leaves_other_keys_witness :
  let s := store 3 (store 1 __init__ (py "a") (PyInt 1)) (py "b") (PyInt 2) in
  retrieve (store 9 s (py "b") PyNone) (py "a") = retrieve s (py "a")
  /\ Dict.get (timestamps (store 9 s (py "b") PyNone)) (py "a")
     = Dict.get (timestamps s) (py "a")
  /\ exists tail, get_all_keys (store 9 s (py "b") PyNone) = get_all_keys s ++ tail
                  /\ ~ In (py "a") tail.
Proof.
  intros s. apply (store_leaves_other_keys 9 s (py "a") (py "b") PyNone).
  vm_compute. discriminate.
Defined.

End StoreHistoryFacts.

(** ** The adapter: requests, output and simulation *)

Section AdapterMoreFacts.
Import FastMCPTool.
Variable rt : PyRuntime.
Variable server : http_request -> http_outcome.

Lemma lstrip_repeat (c : N) (n : nat) (s : pystr) : lstrip c (repeat c n ++ s) = lstrip c s.
Proof. induction n as [|n IH]; simpl; [reflexivity|]. now rewrite N.eqb_refl. Qed.

Lemma demo_after_slashes (n : nat) (s : pystr) :
  contains (py "demo") (repeat 47 n ++ s) = contains (py "demo") s.
Proof. induction n as [|n IH]; [reflexivity|]. simpl repeat. simpl app. exact IH. Qed.

(** X4: on the live path leading slashes of the endpoint do not count: the
    call behaves exactly as for the endpoint without them (same request,
    same result, same output). *)
Theorem run_ignores_leading_slashes self endpoint method params data w (n : nat) :
  simulated self endpoint = false ->
  _run rt server self (repeat 47 n ++ endpoint) method params data w
  = _run rt server self endpoint method params data w.
Proof.
  intros Hlive. unfold _run, _run_try, simulated in *.
  rewrite demo_after_slashes, Hlive. now rewrite lstrip_repeat.
Qed.

Lemma run_try_stdout self endpoint method params data w :
  stdout (snd (_run_try rt server self endpoint method params data w)) = stdout w
  /\ clock (snd (_run_try rt server self endpoint method params data w)) = clock w.
Proof.
  destruct (simulated self endpoint) eqn:E.
  - rewrite (run_try_simulated rt server _ _ _ _ _ _ E). split; reflexivity.
  - rewrite (run_try_live rt server _ _ _ _ _ _ E). split; reflexivity.
Qed.

Lemma run_except_exact (e : exn) (w : world) :
  exists out,
    _run_except rt e w = (inr out, printed w (py "❌ " ++ error_message e))
    /\ Json.dumps rt None true (error_payload (error_message e)) = inr out
    /\ has_error_key rt out = true.
Proof.
  destruct (error_payload_has_error_key rt (error_message e)) as [out [Hd Hk]].
  exists out. split; [|split; assumption].
  unfold _run_except, error_message in *.
  destruct (is_RequestException e); unfold bind, print, lift; now rewrite Hd.
Qed.


End AdapterMoreFacts.

Lemma run_ignores_leading_slashes_witness :
  let self := FastMCPTool.__init__ (py "http://example.com/api") None in
  FastMCPTool._run example_runtime refusing_server self (py "//items") (py "GET")
    PyNone PyNone fresh_world
  = FastMCPTool._run example_runtime refusing_server self (py "items") (py "GET")
      PyNone PyNone fresh_world.
Proof.
  intros self.
  apply (run_ignores_leading_slashes example_runtime refusing_server self (py "items")
           (py "GET") PyNone PyNone fresh_world 2).
  vm_compute. reflexivity.
Defined.

Section SimulationMoreFacts.
Import FastMCPTool.
Variable rt : PyRuntime.
Variable server : http_request -> http_outcome.

Lemma get_if_falsy (d : pyval) (k : pystr) (default : pyval) :
  truthy d = false -> get_if d k default = inr default.
Proof. intros H. unfold get_if. now rewrite H. Qed.

Lemma fixed_payloads_serialise :
  (exists text, Json.dumps rt (Some 2%nat) true (weather_payload default_city) = inr text)
  /\ (exists text, Json.dumps rt (Some 2%nat) true news_payload = inr text)
  /\ (exists text,
        Json.dumps rt (Some 2%nat) true (research_payload (PyStr (py "AI agents"))) = inr text)
  /\ (exists text,
        Json.dumps rt (Some 2%nat) true
          (health_payload (PyList [PyStr (py "headache"); PyStr (py "fatigue")])) = inr text).
Proof. repeat split; eexists; vm_compute; reflexivity. Qed.

Lemma default_payload_serialises (method endpoint : pystr) :
  exists text, Json.dumps rt (Some 2%nat) true (default_payload method endpoint) = inr text.
Proof. eexists. reflexivity. Qed.

(** X6: a simulated call whose [params] and [data] are absent or falsy (of
    whatever type) never fails, for any endpoint and method: it returns the
    text of a JSON object that has no ["error"] key, the same text as with
    no arguments at all, prints nothing and sends nothing. *)
Theorem simulation_without_arguments self endpoint method params data w :
  simulated self endpoint = true ->
  truthy params = false -> truthy data = false ->
  exists d text,
    _run rt server self endpoint method params data w = (inr text, w)
    /\ _simulate_mcp_response rt self endpoint method PyNone PyNone = inr text
    /\ Json.dumps rt (Some 2%nat) true (PyDict d) = inr text
    /\ Dict.has d (py "error") = false.
Proof.
  intros Hsim Hp Hd.
  assert (Hsame : _simulate_mcp_response rt self endpoint method params data
                  = _simulate_mcp_response rt self endpoint method PyNone PyNone).
  { unfold _simulate_mcp_response. now rewrite !(get_if_falsy _ _ _ Hp), !(get_if_falsy _ _ _ Hd). }
  destruct fixed_payloads_serialise as ((tw & Hw) & (tn & Hn) & (tr & Hr) & (th & Hh)).
  destruct (default_payload_serialises method endpoint) as (td & Hdef).
  assert (Hcases : exists d text,
             _simulate_mcp_response rt self endpoint method PyNone PyNone = inr text
             /\ Json.dumps rt (Some 2%nat) true (PyDict d) = inr text
             /\ Dict.has d (py "error") = false).
  { unfold _simulate_mcp_response. cbv zeta.
    destruct (contains (py "weather") (lower rt endpoint)
              || contains (py "forecast") (lower rt endpoint)).
    { eexists _, tw. split; [exact Hw|]. split; [exact Hw | reflexivity]. }
    destruct (contains (py "news") (lower rt endpoint)
              || contains (py "headlines") (lower rt endpoint)).
    { eexists _, tn. split; [exact Hn|]. split; [exact Hn | reflexivity]. }
    destruct (contains (py "research") (lower rt endpoint)
              || contains (py "data") (lower rt endpoint)).
    { eexists _, tr. split; [exact Hr|]. split; [exact Hr | reflexivity]. }
    destruct (contains (py "health") (lower rt endpoint)
              || contains (py "medical") (lower rt endpoint)).
    { eexists _, th. split; [exact Hh|]. split; [exact Hh | reflexivity]. }
    eexists _, td. split; [exact Hdef|]. split; [exact Hdef | reflexivity]. }
  destruct Hcases as (d & text & Hs & Hdump & Hkey).
  exists d, text. split; [|split; [exact Hs | split; assumption]].
  apply run_simulated; [exact Hsim | now rewrite Hsame].
Qed.

(** X7: in the four keyword categories the simulated response depends on the
    endpoint only through its lower-case form, and not on the method or on
    the adapter: two endpoints that differ in case get the same text. *)
Theorem simulation_ignores_case self self' endpoint endpoint' method method' params data :
  lower rt endpoint = lower rt endpoint' ->
  has_keyword (lower rt endpoint) = true ->
  _simulate_mcp_response rt self endpoint method params data
  = _simulate_mcp_response rt self' endpoint' method' params data.
Proof.
  intros Hlow Hkw. unfold _simulate_mcp_response. cbv zeta. rewrite <- Hlow.
  unfold has_keyword in Hkw. cbn [existsb] in Hkw.
  destruct (contains (py "weather") (lower rt endpoint)); [reflexivity|].
  destruct (contains (py "forecast") (lower rt endpoint)); [reflexivity|].
  destruct (contains (py "news") (lower rt endpoint)); [reflexivity|].
  destruct (contains (py "headlines") (lower rt endpoint)); [reflexivity|].
  destruct (contains (py "research") (lower rt endpoint)); [reflexivity|].
  destruct (contains (py "data") (lower rt endpoint)); [reflexivity|].
  destruct (contains (py "health") (lower rt endpoint)); [reflexivity|].
  destruct (contains (py "medical") (lower rt endpoint)); [reflexivity|].
  discriminate.
Qed.


End SimulationMoreFacts.

Lemma simulation_without_arguments_witness :
  let self := FastMCPTool.__init__ (py "http://example.com") None in
  exists d text,
    FastMCPTool._run example_runtime refusing_server self (py "demo/orders") (py "POST")
      (PyDict []) (PyStr []) fresh_world = (inr text, fresh_world)
    /\ FastMCPTool._simulate_mcp_response example_runtime self (py "demo/orders") (py "POST")
         PyNone PyNone = inr text
    /\ Json.dumps example_runtime (Some 2%nat) true (PyDict d) = inr text
    /\ Dict.has d (py "error") = false.
Proof.
  intros self.
  apply (simulation_without_arguments example_runtime refusing_server self (py "demo/orders")
           (py "POST") (PyDict []) (PyStr []) fresh_world); vm_compute; reflexivity.
Defined.

Lemma simulation_ignores_case_witness :
  let self := FastMCPTool.__init__ (py "http://localhost:8000") None in
  FastMCPTool._simulate_mcp_response example_runtime self (py "Weather/Today") (py "GET")
    PyNone PyNone
  = FastMCPTool._simulate_mcp_response example_runtime self (py "WEATHER/today") (py "post")
      PyNone PyNone.
Proof.
  intros self.
  apply (simulation_ignores_case example_runtime self self (py "Weather/Today")
           (py "WEATHER/today") (py "GET") (py "post") PyNone PyNone); vm_compute; reflexivity.
Defined.


(** ** The tool over whole call sequences *)

Section ToolMoreFacts.
Import FastMCPTool AdvancedMCPTool ToolOps.
Variable rt : PyRuntime.
Variable server : http_request -> http_outcome.

Lemma exec_requests (self : AdvancedMCPTool.t) (c : call) (w : world) :
  forall req, In req (sent (snd (exec rt server self c w))) ->
    In req (sent w)
    \/ exists endpoint method params data,
         req = live_request rt (base self) endpoint method params data.
Proof.
  intros req. destruct c; simpl; auto.
  pose proof (run_sent rt server (base self) endpoint method params data w) as Hs.
  destruct (_run rt server (base self) endpoint method params data w) as [r w'].
  simpl in *. rewrite Hs. destruct (simulated (base self) endpoint); [auto|].
  rewrite in_app_iff. intros [H|[<-|[]]]; [auto|]. right. eauto.
Qed.

Lemma run_requests (cs : list call) :
  forall (self : AdvancedMCPTool.t) (w : world) req,
    In req (sent (snd (run rt server self cs w))) ->
    In req (sent w)
    \/ exists endpoint method params data,
         req = live_request rt (base self) endpoint method params data.
Proof.
  induction cs as [|c cs IH]; intros self w req; simpl; [auto|].
  pose proof (exec_keeps_base rt server self c w) as Hb.
  pose proof (exec_requests self c w) as Hs.
  destruct (exec rt server self c w) as [[r self'] w']. simpl in Hb, Hs.
  intros Hreq. destruct (IH self' w' req Hreq) as [H|H]; [auto|].
  right. now rewrite Hb in H.
Qed.


Lemma run_clock self endpoint method params data w :
  clock (snd (FastMCPTool._run rt server self endpoint method params data w)) = clock w.
Proof.
  destruct (run_world rt server self endpoint method params data w) as (out & _ & _ & Hc & _).
  rewrite Hc. apply run_try_stdout.
Qed.

Lemma store_research_data_exact (self : AdvancedMCPTool.t) (key : pystr) (data : pyval)
  (w : world) :
  store_research_data self key data w
  = (inr (py "✅ Data stored successfully with key: " ++ key,
          {| base := base self;
             data_store := ResearchDataStore.store (clock w) (data_store self) key data |}),
     w).
Proof. reflexivity. Qed.


(** X11: storing through the tool always succeeds and changes nothing but
    the store; afterwards [retrieve_research_data] on that key gives the
    JSON text of the value when it is truthy (the failure line when
    [json.dumps] refuses it) and the "No data found" line when it is falsy,
    while every other key answers as before. *)
Theorem tool_store_then_retrieve (self : AdvancedMCPTool.t) (k : pystr) (v : pyval)
  (w : world) :
  exists self',
    store_research_data self k v w
    = (inr (py "✅ Data stored successfully with key: " ++ k, self'), w)
    /\ base self' = base self
    /\ retrieve_research_data rt self' k
       = (if truthy v then
            match Json.dumps rt (Some 2%nat) true v with
            | inr s => s
            | inl e => py "❌ Failed to retrieve data: " ++ err_msg e
            end
          else py "❌ No data found for key: " ++ k)
    /\ forall k', k' <> k ->
         retrieve_research_data rt self' k' = retrieve_research_data rt self k'.
Proof.
  eexists. split; [apply store_research_data_exact|]. split; [reflexivity|].
  unfold retrieve_research_data, ResearchDataStore.retrieve, ResearchDataStore.store; simpl.
  split.
  - rewrite get_set_same. destruct (truthy v); reflexivity.
  - intros k' Hne. now rewrite get_set_other by congruence.
Qed.

(** X12: a falsy value stored through the tool is reported stored, is
    counted and listed by the summary, and is reported missing by
    [retrieve_research_data]. *)
Theorem falsy_value_stored_but_missing (self : AdvancedMCPTool.t) (k : pystr) (v : pyval)
  (w : world) :
  truthy v = false ->
  exists self',
    store_research_data self k v w
    = (inr (py "✅ Data stored successfully with key: " ++ k, self'), w)
    /\ In k (ResearchDataStore.get_all_keys (data_store self'))
    /\ get_research_summary self'
       = py "📊 Research Data Summary" ++ [10]
           ++ py "Total datasets: "
           ++ str_of_int (Z.of_nat (length (ResearchDataStore.get_all_keys (data_store self'))))
           ++ [10]
           ++ py "Available keys: "
           ++ join (py ", ") (ResearchDataStore.get_all_keys (data_store self')) ++ [10]
    /\ retrieve_research_data rt self' k = py "❌ No data found for key: " ++ k.
Proof.
  intros Hfalsy. eexists. split; [apply store_research_data_exact|].
  assert (Hin : In k (Dict.keys (Dict.set (ResearchDataStore.data (data_store self)) k v))).
  { apply in_keys_get. eexists. apply get_set_same. }
  split; [exact Hin|]. split.
  - unfold get_research_summary, ResearchDataStore.get_all_keys; simpl.
    destruct (Dict.keys (Dict.set (ResearchDataStore.data (data_store self)) k v));
      [destruct Hin | reflexivity].
  - unfold retrieve_research_data, ResearchDataStore.retrieve; simpl.
    rewrite get_set_same. now rewrite Hfalsy.
Qed.

End ToolMoreFacts.


Lemma falsy_value_stored_but_missing_witness :
  let tool := AdvancedMCPTool.__init__ (py "http://localhost:8000") None None in
  exists tool',
    AdvancedMCPTool.store_research_data tool (py "count") (PyInt 0) fresh_world
    = (inr (py "✅ Data stored successfully with key: " ++ py "count", tool'), fresh_world)
    /\ AdvancedMCPTool.retrieve_research_data example_runtime tool' (py "count")
       = py "❌ No data found for key: " ++ py "count".
Proof.
  intros tool.
  destruct (falsy_value_stored_but_missing example_runtime tool (py "count") (PyInt 0)
              fresh_world) as (tool' & Hs & _ & _ & Hr).
  - reflexivity.
  - exists tool'. split; [exact Hs | exact Hr].
Defined.

(** ** Stores shared between tools *)

Section SharedStoreFacts.
Import SharedStore.
Variable rt : PyRuntime.

Lemma deref_assign_same (h : heap) (r : nat) (s : ResearchDataStore.t) :
  (r < length h)%nat -> deref (assign h r s) r = s.
Proof.
  unfold deref. revert r; induction h as [|x h IH]; intros r Hr; simpl in *; [lia|].
  destruct r; simpl; [reflexivity|]. apply IH. lia.
Qed.

Lemma deref_assign_other (h : heap) (r r' : nat) (s : ResearchDataStore.t) :
  r <> r' -> deref (assign h r s) r' = deref h r'.
Proof.
  unfold deref. revert r r'; induction h as [|x h IH]; intros r r' Hne; simpl; [reflexivity|].
  destruct r, r'; simpl; try reflexivity; [congruence|]. apply IH. congruence.
Qed.

Lemma deref_new (h : heap) : deref (snd (new_store h)) (fst (new_store h)) = ResearchDataStore.__init__.
Proof. unfold deref, new_store; simpl. now rewrite nth_middle. Qed.

Lemma shared_store_exact (self : tool) (key : pystr) (data : pyval) (h : heap) (w : world) :
  store_research_data self key data h w
  = (inr (py "✅ Data stored successfully with key: " ++ key,
          assign h (store_ref self)
            (ResearchDataStore.store (clock w) (deref h (store_ref self)) key data)),
     w).
Proof. reflexivity. Qed.



End SharedStoreFacts.


(** ** Set-up from the environment *)

Section SetupFacts.
Variable rt : PyRuntime.
Variable server : http_request -> http_outcome.

Lemma placeholder_normalised :
  rstrip 47 (py "http://localhost:8000") = py "http://localhost:8000".
Proof. vm_compute. reflexivity. Qed.


End SetupFacts.


(** ** The data-sharing demonstration *)

Section DemonstrationFacts.
Import AdvancedCrewAIWorkflows.
Variable rt : PyRuntime.

Lemma sample_round_trip :
  exists text,
    Json.dumps rt (Some 2%nat) true sample_research_data = inr text
    /\ Json.loads rt text = Some sample_research_data.
Proof. eexists. split; [vm_compute; reflexivity|]. vm_compute. reflexivity. Qed.


End DemonstrationFacts.


(** ** Text survives the trip through JSON *)

Section ScanExact.
Import Json.

Lemma pairs_join_back_table : all_below pairs_join_back_row (N.to_nat 1024) 0 = true.
Proof. vm_compute. reflexivity. Qed.

Lemma pair_joins_back_spec (v : N) : v < 1048576 -> pair_joins_back v = true.
Proof.
  intros Hv.
  assert (Hhi : v / 1024 < 1024) by (apply N.Div0.div_lt_upper_bound; lia).
  assert (Hlo : v mod 1024 < 1024) by (apply N.mod_lt; discriminate).
  pose proof (all_below_N _ 1024 pairs_join_back_table (v / 1024) Hhi) as Hrow.
  unfold pairs_join_back_row in Hrow.
  pose proof (all_below_N _ 1024 Hrow (v mod 1024) Hlo) as H.
  cbv beta in H. replace (v / 1024 * 1024 + v mod 1024) with v in H; [exact H|].
  rewrite (N.div_mod v 1024) at 1 by discriminate. lia.
Qed.

Lemma short_escape_inverse (c e : N) :
  short_escape c = Some e -> (e =? 117) = false /\ unescape e = Some c.
Proof.
  unfold short_escape.
  destruct (c =? 34) eqn:E34; [apply N.eqb_eq in E34; intros [= <-]; subst; now split|].
  destruct (c =? 92) eqn:E92; [apply N.eqb_eq in E92; intros [= <-]; subst; now split|].
  destruct (c =? 10) eqn:E10; [apply N.eqb_eq in E10; intros [= <-]; subst; now split|].
  destruct (c =? 13) eqn:E13; [apply N.eqb_eq in E13; intros [= <-]; subst; now split|].
  destruct (c =? 9) eqn:E9; [apply N.eqb_eq in E9; intros [= <-]; subst; now split|].
  destruct (c =? 12) eqn:E12; [apply N.eqb_eq in E12; intros [= <-]; subst; now split|].
  destruct (c =? 8) eqn:E8; [apply N.eqb_eq in E8; intros [= <-]; subst; now split|].
  discriminate.
Qed.

Lemma short_escape_none (c : N) :
  short_escape c = None -> (c =? 34) = false /\ (c =? 92) = false.
Proof.
  unfold short_escape.
  destruct (c =? 34); [discriminate|]. destruct (c =? 92); [discriminate|]. now split.
Qed.

Lemma scalar_not_high (c : N) : scalar c = true -> is_high_surrogate c = false.
Proof.
  unfold scalar, is_high_surrogate. intros H.
  apply orb_true_iff in H as [H|H].
  - apply N.ltb_lt in H. apply andb_false_iff. left. apply N.leb_gt. exact H.
  - apply andb_true_iff in H as [H _]. apply N.ltb_lt in H.
    apply andb_false_iff. right. apply N.leb_gt. lia.
Qed.

(** One escaped character is read in one step of the scanner. *)
Lemma scan_escaped_char (ensure_ascii : bool) (c : N) (f : nat) (r acc : pystr) :
  (ensure_ascii = true -> scalar c = true) ->
  scan_string (S f)
    ((if ensure_ascii then escape_char_ascii else escape_char_plain) c ++ r) acc
  = scan_string f r (c :: acc).
Proof.
  intros Hscalar. destruct ensure_ascii.
  - specialize (Hscalar eq_refl). unfold escape_char_ascii.
    destruct (short_escape c) as [e|] eqn:Es.
    + destruct (short_escape_inverse _ _ Es) as [Hu Hd]. apply scan_short; assumption.
    + destruct (short_escape_none _ Es) as [H34 H92].
      destruct ((32 <=? c) && (c <=? 126)) eqn:Ep.
      * apply andb_true_iff in Ep as [Hlo _]. apply N.leb_le in Hlo.
        apply scan_plain; [assumption | assumption | apply N.ltb_ge; exact Hlo].
      * destruct (c <? 65536) eqn:Eb.
        -- apply N.ltb_lt in Eb. cbn [app]. apply scan_u_single; [exact Eb|].
           now rewrite scalar_not_high.
        -- apply N.ltb_ge in Eb. cbv zeta.
           destruct (high_half (N.shiftr (c - 65536) 10)) as (Hs1 & Hh1 & _).
           destruct (low_half (c - 65536)) as (Hs2 & Hl2).
           rewrite <- app_assoc. cbn [app].
           rewrite (scan_u_pair _ _ _ _ _ Hs1 Hs2 Hh1 Hl2).
           assert (Hc : c - 65536 < 1048576).
           { unfold scalar in Hscalar. apply orb_true_iff in Hscalar as [H|H].
             - apply N.ltb_lt in H. lia.
             - apply andb_true_iff in H as [_ H]. apply N.leb_le in H. lia. }
           pose proof (pair_joins_back_spec _ Hc) as Hj. unfold pair_joins_back in Hj.
           apply N.eqb_eq in Hj. rewrite Hj.
           replace (65536 + (c - 65536)) with c by lia. reflexivity.
  - unfold escape_char_plain.
    destruct (short_escape c) as [e|] eqn:Es.
    + destruct (short_escape_inverse _ _ Es) as [Hu Hd]. apply scan_short; assumption.
    + destruct (short_escape_none _ Es) as [H34 H92].
      destruct (c <? 32) eqn:E32.
      * apply N.ltb_lt in E32. cbn [app]. apply scan_u_single; [lia|].
        assert (Hh : is_high_surrogate c = false)
          by (unfold is_high_surrogate; apply andb_false_iff; left; apply N.leb_gt; lia).
        now rewrite Hh.
      * apply scan_plain; assumption.
Qed.

(** The scanner gives back exactly the string that was escaped. *)
Lemma scan_escaped_exact (ensure_ascii : bool) (rest : pystr) :
  forall (s : pystr), (ensure_ascii = true -> forallb scalar s = true) ->
  forall (fuel : nat) (acc : pystr), (length s < fuel)%nat ->
  scan_string fuel (escape ensure_ascii s ++ 34 :: rest) acc = Some (rev acc ++ s, rest).
Proof.
  induction s as [|c s IH]; intros Hs fuel acc Hfuel.
  - destruct fuel; [simpl in Hfuel; lia|]. simpl. now rewrite app_nil_r.
  - destruct fuel as [|f]; [simpl in Hfuel; lia|].
    change (escape ensure_ascii (c :: s))
      with ((if ensure_ascii then escape_char_ascii else escape_char_plain) c
              ++ escape ensure_ascii s).
    rewrite <- app_assoc. rewrite scan_escaped_char.
    + rewrite IH.
      * simpl. now rewrite <- app_assoc.
      * intros E. specialize (Hs E). simpl in Hs. now apply andb_true_iff in Hs.
      * simpl in Hfuel. lia.
    + intros E. specialize (Hs E). simpl in Hs. now apply andb_true_iff in Hs.
Qed.

Lemma length_escape (ensure_ascii : bool) (s : pystr) :
  (length s <= length (escape ensure_ascii s))%nat.
Proof.
  induction s as [|c s IH]; [reflexivity|].
  change (escape ensure_ascii (c :: s))
    with ((if ensure_ascii then escape_char_ascii else escape_char_plain) c
            ++ escape ensure_ascii s).
  rewrite length_app. simpl.
  assert (1 <= length ((if ensure_ascii then escape_char_ascii else escape_char_plain) c))%nat.
  { destruct ensure_ascii; unfold escape_char_ascii, escape_char_plain;
      destruct (short_escape c);
      repeat match goal with |- context [if ?b then _ else _] => destruct b end;
      cbv zeta; rewrite ?length_app; cbn [length]; lia. }
  lia.
Qed.

Lemma error_object_parses_exactly rt (msg : pystr) :
  forallb scalar msg = true ->
  Json.loads rt (123 :: encode_str true (py "error") ++ [58; 32] ++ encode_str true msg ++ [125])
  = Some (PyDict [(py "error", PyStr msg)]).
Proof.
  intros Hmsg.
  assert (Hscan : scan_string (S (length (escape true msg ++ [34; 125])))
                    (escape true msg ++ [34; 125]) [] = Some (msg, [125])).
  { apply (scan_escaped_exact true [125] msg (fun _ => Hmsg)).
    rewrite length_app. pose proof (length_escape true msg). simpl. lia. }
  rewrite error_text_shape. unfold loads.
  change (skip_ws (123 :: ?x)) with (123 :: x).
  change (S (length (123 :: ?l))) with (S (S (length l))).
  now rewrite (parse_error_object rt _ _ msg [] Hscan).
Qed.

End ScanExact.

Section ErrorRoundTrip.
Import FastMCPTool.
Variable rt : PyRuntime.
Variable server : http_request -> http_outcome.

Lemma error_message_scalar (e : exn) :
  forallb scalar (err_msg e) = true -> forallb scalar (error_message e) = true.
Proof.
  intros H. unfold error_message. rewrite forallb_app, H.
  destruct (is_RequestException e); vm_compute; reflexivity.
Qed.


End ErrorRoundTrip.


(** ** Values survive the trip through JSON *)

Section JsonRoundTrip.
Import Json.

Lemma pyval_induction (P : pyval -> Prop) :
  P PyNone -> (forall b, P (PyBool b)) -> (forall z, P (PyInt z)) ->
  (forall f, P (PyFloat f)) -> (forall s, P (PyStr s)) -> (forall b, P (PyBytes b)) ->
  (forall l, Forall P l -> P (PyList l)) ->
  (forall d, Forall (fun kv => P (snd kv)) d -> P (PyDict d)) ->
  forall v, P v.
Proof.
  intros HN HB HI HF HS HY HL HD.
  fix IH 1. intros [ | b | z | f | s | b | l | d];
    [apply HN | apply HB | apply HI | apply HF | apply HS | apply HY | | ].
  - apply HL. revert l. fix IHl 1. intros [|x l]; constructor; [apply IH | apply IHl].
  - apply HD. revert d. fix IHd 1. intros [|[k x] d]; constructor; [apply IH | apply IHd].
Qed.

Lemma codes_cons (a : ascii) (s : string) : codes (String a s) = N_of_ascii a :: codes s.
Proof. reflexivity. Qed.

Lemma digits_value_acc (d : Decimal.uint) (acc : positive) :
  fold_left digit_step (codes (NilEmpty.string_of_uint d)) (Z.pos acc)
  = Z.pos (Pos.of_uint_acc d acc).
Proof.
  revert acc; induction d; intros acc; cbn [NilEmpty.string_of_uint Pos.of_uint_acc];
    [reflexivity|..];
    rewrite codes_cons; cbn [fold_left]; rewrite <- IHd; f_equal;
    unfold digit_step; simpl (N_of_ascii _); lia.
Qed.

Lemma digits_value (d : Decimal.uint) :
  fold_left digit_step (codes (NilEmpty.string_of_uint d)) 0%Z = Z.of_N (Pos.of_uint d).
Proof.
  induction d; cbn [NilEmpty.string_of_uint Pos.of_uint]; [reflexivity|..];
    rewrite codes_cons; cbn [fold_left]; [exact IHd|..];
    cbn [Z.of_N]; rewrite <- digits_value_acc; f_equal.
Qed.

Lemma span_digits_codes (d : Decimal.uint) (rest : pystr) :
  match rest with [] => true | c :: _ => negb (is_digit c) end = true ->
  span_digits (codes (NilEmpty.string_of_uint d) ++ rest)
  = (codes (NilEmpty.string_of_uint d), rest).
Proof.
  intros Hrest. induction d; cbn [NilEmpty.string_of_uint];
    [|rewrite codes_cons; cbn [app span_digits]; simpl (is_digit (N_of_ascii _));
      cbv iota; now rewrite IHd ..].
  change (codes "" ++ rest) with rest.
  destruct rest as [|c r]; [reflexivity|]. cbn [span_digits].
  apply negb_true_iff in Hrest. now rewrite Hrest.
Qed.

Lemma unorm_head_zero (d x : Decimal.uint) : Decimal.unorm d = Decimal.D0 x -> x = Decimal.Nil.
Proof.
  induction d; simpl; try discriminate; [intros [= <-]; reflexivity | exact IHd].
Qed.

Lemma to_uint_head (p : positive) :
  exists c r,
    codes (NilEmpty.string_of_uint (Pos.to_uint p)) = c :: r
    /\ is_digit c = true /\ (c =? 48) = false.
Proof.
  pose proof (DecimalPos.Unsigned.to_of (Pos.to_uint p)) as Hnorm.
  rewrite DecimalPos.Unsigned.of_to in Hnorm. simpl in Hnorm.
  pose proof (DecimalPos.Unsigned.to_uint_nonzero p) as Hnz.
  destruct (Pos.to_uint p) as [|d|d|d|d|d|d|d|d|d|d] eqn:E;
    [now elim (DecimalPos.Unsigned.to_uint_nonnil p)|..].
  - symmetry in Hnorm. apply unorm_head_zero in Hnorm. subst d. now elim Hnz.
  - eexists _, _. split; [apply codes_cons|]. split; reflexivity.
  - eexists _, _. split; [apply codes_cons|]. split; reflexivity.
  - eexists _, _. split; [apply codes_cons|]. split; reflexivity.
  - eexists _, _. split; [apply codes_cons|]. split; reflexivity.
  - eexists _, _. split; [apply codes_cons|]. split; reflexivity.
  - eexists _, _. split; [apply codes_cons|]. split; reflexivity.
  - eexists _, _. split; [apply codes_cons|]. split; reflexivity.
  - eexists _, _. split; [apply codes_cons|]. split; reflexivity.
  - eexists _, _. split; [apply codes_cons|]. split; reflexivity.
Qed.

Lemma delimited_cases (c : N) (r : pystr) :
  delimited (c :: r) = true ->
  c = 44 \/ c = 93 \/ c = 125 \/ c = 32 \/ c = 9 \/ c = 10 \/ c = 13.
Proof.
  unfold delimited, is_ws. rewrite !orb_true_iff, !N.eqb_eq. tauto.
Qed.

Lemma delimited_not_digit (rest : pystr) :
  delimited rest = true ->
  match rest with [] => true | c :: _ => negb (is_digit c) end = true.
Proof.
  destruct rest as [|c r]; [reflexivity|]. intros H.
  destruct (delimited_cases _ _ H) as [->|[->|[->|[->|[->|[->| ->]]]]]]; reflexivity.
Qed.

Lemma delimited_no_frac (rest : pystr) :
  delimited rest = true -> scan_frac rest = ([], rest) /\ scan_exp rest = ([], rest).
Proof.
  destruct rest as [|c r]; [split; reflexivity|]. intros H.
  destruct (delimited_cases _ _ H) as [->|[->|[->|[->|[->|[->| ->]]]]]]; split; reflexivity.
Qed.

Lemma string_of_uint_nonnil (d : Decimal.uint) :
  d <> Decimal.Nil -> NilZero.string_of_uint d = NilEmpty.string_of_uint d.
Proof. destruct d; [congruence | reflexivity ..]. Qed.

Lemma int_of_digits_fold (ds : pystr) : int_of_digits ds = fold_left digit_step ds 0%Z.
Proof. reflexivity. Qed.

Lemma scan_number_pos (p : positive) (rest : pystr) :
  delimited rest = true ->
  scan_int_part (codes (NilEmpty.string_of_uint (Pos.to_uint p)) ++ rest)
  = Some (codes (NilEmpty.string_of_uint (Pos.to_uint p)), rest)
  /\ int_of_digits (codes (NilEmpty.string_of_uint (Pos.to_uint p))) = Z.pos p.
Proof.
  intros Hrest. split.
  - destruct (to_uint_head p) as (c & r & Hc & Hd & Hz).
    pose proof (span_digits_codes (Pos.to_uint p) rest (delimited_not_digit _ Hrest)) as Hspan.
    rewrite Hc in *. cbn [app] in *. unfold scan_int_part. rewrite Hz, Hd. now rewrite Hspan.
  - rewrite int_of_digits_fold, digits_value, DecimalPos.Unsigned.of_to. reflexivity.
Qed.

Lemma str_of_int_cases (z : Z) :
  match z with
  | Z0 => str_of_int z = [48]
  | Zpos p => str_of_int z = codes (NilEmpty.string_of_uint (Pos.to_uint p))
  | Zneg p => str_of_int z = 45 :: codes (NilEmpty.string_of_uint (Pos.to_uint p))
  end.
Proof.
  destruct z; [reflexivity| |]; unfold str_of_int; cbn [Z.to_int NilZero.string_of_int];
    rewrite (string_of_uint_nonnil _ (DecimalPos.Unsigned.to_uint_nonnil p)); reflexivity.
Qed.

Lemma scan_number_int rt (z : Z) (rest : pystr) :
  delimited rest = true ->
  scan_number rt (str_of_int z ++ rest) = Some (PyInt z, rest).
Proof.
  intros Hrest. destruct (delimited_no_frac _ Hrest) as [Hfrac Hexp].
  pose proof (str_of_int_cases z) as Hz. unfold scan_number.
  destruct z as [|p|p]; rewrite Hz.
  - cbn [app scan_sign N.eqb Pos.eqb scan_int_part]. now rewrite Hfrac, Hexp.
  - destruct (scan_number_pos p rest Hrest) as [Hint Hval].
    destruct (to_uint_head p) as (c & r & Hc & Hd & Hzero).
    assert (Hsign : scan_sign (codes (NilEmpty.string_of_uint (Pos.to_uint p)) ++ rest)
                    = ([], codes (NilEmpty.string_of_uint (Pos.to_uint p)) ++ rest)).
    { rewrite Hc. cbn [app scan_sign].
      destruct (c =? 45) eqn:E; [|reflexivity].
      apply N.eqb_eq in E. subst c. discriminate. }
    rewrite Hsign, Hint, Hfrac, Hexp, Hval. reflexivity.
  - destruct (scan_number_pos p rest Hrest) as [Hint Hval].
    cbn [app scan_sign N.eqb Pos.eqb]. rewrite Hint, Hfrac, Hexp, Hval. reflexivity.
Qed.

Lemma str_of_int_head (z : Z) :
  exists c r, str_of_int z = c :: r /\ (is_digit c || (c =? 45)) = true.
Proof.
  pose proof (str_of_int_cases z) as Hz. destruct z as [|p|p]; rewrite Hz.
  - eexists _, _. split; reflexivity.
  - destruct (to_uint_head p) as (c & r & Hc & Hd & _). exists c, r. now rewrite Hc, Hd.
  - eexists _, _. split; reflexivity.
Qed.

Lemma parse_value_number rt (f : nat) (c : N) (r : pystr) (res : pyval * pystr) :
  (is_digit c || (c =? 45)) = true ->
  scan_number rt (c :: r) = Some res ->
  parse_value rt (S f) (c :: r) = Some res.
Proof.
  intros Hc Hnum.
  assert (H : (c =? 34) = false /\ (c =? 123) = false /\ (c =? 91) = false
              /\ (c =? 110) = false /\ (c =? 116) = false /\ (c =? 102) = false).
  { unfold is_digit in Hc. rewrite orb_true_iff, andb_true_iff, !N.leb_le, N.eqb_eq in Hc.
    repeat split; apply N.eqb_neq; lia. }
  destruct H as (H1 & H2 & H3 & H4 & H5 & H6).
  cbn [parse_value]. rewrite H1, H2, H3, H4, H5, H6, Hnum. reflexivity.
Qed.

Section RoundTrip.
Variable rt : PyRuntime.
Variable indent : option nat.
Variable ensure_ascii : bool.

Lemma skip_ws_spaces (n : nat) (x : pystr) : skip_ws (repeat 32 n ++ x) = skip_ws x.
Proof. induction n; [reflexivity | exact IHn]. Qed.

Lemma skip_ws_newline_indent (level : nat) (x : pystr) :
  skip_ws (newline_indent indent level ++ x) = skip_ws x.
Proof.
  unfold newline_indent. destruct indent; [|reflexivity].
  cbn [app skip_ws]. change (is_ws 10) with true. cbv iota. apply skip_ws_spaces.
Qed.

Lemma item_separator_shape (level : nat) :
  item_separator indent level = 44 :: separator_space indent level.
Proof. unfold item_separator, separator_space. destruct indent; reflexivity. Qed.

Lemma skip_ws_separator_space (level : nat) (x : pystr) :
  skip_ws (separator_space indent level ++ x) = skip_ws x.
Proof.
  unfold separator_space. destruct indent eqn:E; [|reflexivity].
  rewrite <- E. apply skip_ws_newline_indent.
Qed.

Lemma skip_ws_head (c : N) (t : pystr) : is_ws c = false -> skip_ws (c :: t) = c :: t.
Proof. intros H. simpl. now rewrite H. Qed.

Lemma delimited_newline_indent (level : nat) (c : N) (rest : pystr) :
  delimited [c] = true -> delimited (newline_indent indent level ++ c :: rest) = true.
Proof. unfold newline_indent. destruct indent; [reflexivity | intros H; exact H]. Qed.

Lemma map_result_forall2 {A B : Type} (f : A -> result B) (l : list A) (parts : list B) :
  map_result f l = inr parts <-> Forall2 (fun x p => f x = inr p) l parts.
Proof.
  revert parts; induction l as [|x l IH]; intros parts; simpl.
  - split; [intros [= <-]; constructor | intros H; inversion H; reflexivity].
  - split.
    + destruct (f x) as [e|y] eqn:E; [discriminate|].
      destruct (map_result f l) as [e|ys] eqn:El; [discriminate|].
      intros [= <-]. constructor; [exact E | now apply IH].
    + intros H. inversion H as [|? p ? ps Hx Hl]; subst. rewrite Hx.
      apply IH in Hl. now rewrite Hl.
Qed.

Lemma join_cons2 (sep p q : pystr) (ps : list pystr) :
  join sep (p :: q :: ps) = p ++ sep ++ join sep (q :: ps).
Proof. reflexivity. Qed.

Lemma join_length (sep : pystr) (parts : list pystr) :
  Forall (fun p => (1 <= length p)%nat) parts -> (length parts <= length (join sep parts))%nat.
Proof.
  induction parts as [|p [|q ps] IH]; intros H; [simpl; lia | |].
  - inversion H; subst. simpl. lia.
  - inversion H; subst. rewrite join_cons2, !length_app. specialize (IH H3).
    change (length (p :: q :: ps)) with (S (length (q :: ps))). lia.
Qed.

Lemma join_part_length (sep : pystr) (parts : list pystr) (p : pystr) :
  In p parts -> (length p <= length (join sep parts))%nat.
Proof.
  induction parts as [|p0 [|q ps] IH]; intros H; [destruct H | |].
  - destruct H as [->|[]]. simpl. lia.
  - rewrite join_cons2, !length_app. destruct H as [->|H]; [lia|].
    specialize (IH H). lia.
Qed.

Lemma dict_set_absent {V : Type} (d : list (pystr * V)) (k : pystr) (v : V) :
  existsb (str_eqb k) (map fst d) = false -> Dict.set d k v = d ++ [(k, v)].
Proof.
  induction d as [|[k0 v0] d IH]; simpl; [reflexivity|].
  intros H. apply orb_false_iff in H as [H0 Hd]. rewrite H0. now rewrite IH.
Qed.

Lemma distinct_app_cons (pre : list pystr) (k : pystr) (post : list pystr) :
  distinct (pre ++ k :: post) = true ->
  existsb (str_eqb k) pre = false /\ distinct ((pre ++ [k]) ++ post) = true.
Proof.
  intros H. split.
  - induction pre as [|x pre IH]; [reflexivity|].
    simpl in *. apply andb_true_iff in H as [Hx Hd]. apply negb_true_iff in Hx.
    rewrite existsb_app in Hx. apply orb_false_iff in Hx as [_ Hx]. simpl in Hx.
    apply orb_false_iff in Hx as [Hx _]. rewrite str_eqb_sym, Hx. simpl. now apply IH.
  - now rewrite <- app_assoc.
Qed.

End RoundTrip.

Section RoundTripLoops.
Variable rt : PyRuntime.
Variable indent : option nat.
Variable ensure_ascii : bool.

Lemma join_head (sep : pystr) (c : N) (t : pystr) (ps : list pystr) (z : pystr) :
  exists t', join sep ((c :: t) :: ps) ++ z = c :: t'.
Proof. destruct ps; simpl; eauto. Qed.

Lemma parse_elements_encoded (f level : nat) (rest : pystr) :
  forall (items : list pyval) (parts : list pystr),
    Forall2 (fun v p => reads_back rt v p /\ (depth v < f)%nat) items parts ->
    items <> [] ->
    forall (n : nat) (acc : list pyval), (length items <= n)%nat ->
    parse_elements (parse_value rt f) n
      (join (item_separator indent (S level)) parts
         ++ newline_indent indent level ++ 93 :: rest) acc
    = Some (PyList (rev acc ++ items), rest).
Proof.
  induction items as [|v items IH]; intros parts HF Hne n acc Hn; [congruence|].
  inversion HF as [|? p ? ps [Hv Hd] HF']; subst.
  destruct Hv as (_ & _ & Hparse).
  destruct n as [|n]; [simpl in Hn; lia|]. cbn [parse_elements].
  destruct items as [|v2 more].
  - inversion HF'; subst. cbn [join].
    rewrite (Hparse f _ Hd (delimited_newline_indent indent level 93 rest eq_refl)).
    rewrite skip_ws_newline_indent, (skip_ws_head 93 rest eq_refl).
    cbn [N.eqb Pos.eqb]. reflexivity.
  - inversion HF' as [|? p2 ? ps' [Hv2 Hd2] HF'']; subst.
    rewrite join_cons2, <- !app_assoc. rewrite item_separator_shape at 1. cbn [app].
    rewrite Hparse; [|exact Hd | reflexivity].
    rewrite (skip_ws_head 44 _ eq_refl). cbn [N.eqb Pos.eqb].
    rewrite skip_ws_separator_space.
    pose proof Hv2 as ((c & t & Hp2 & Hws & _) & _).
    match goal with
    | |- context [skip_ws ?X] => assert (Hskip : skip_ws X = X)
    end.
    { rewrite Hp2. destruct ps'; cbn [join app]; apply skip_ws_head; exact Hws. }
    rewrite Hskip.
    rewrite (IH _ HF' ltac:(discriminate) n (v :: acc) ltac:(simpl in *; lia)).
    simpl. now rewrite <- app_assoc.
Qed.

Lemma skip_item_separator (level : nat) (x : pystr) :
  skip_ws (item_separator indent level ++ x) = 44 :: separator_space indent level ++ x.
Proof. rewrite item_separator_shape. reflexivity. Qed.

Lemma parse_member_step (pv : pystr -> option (pyval * pystr)) (n : nat)
  (k s tail : pystr) (acc : list (pystr * pyval)) (v : pyval) :
  forallb scalar k = true ->
  pv (s ++ tail) = Some (v, tail) ->
  skip_ws (s ++ tail) = s ++ tail ->
  parse_members pv (S n) (encode_str ensure_ascii k ++ [58; 32] ++ s ++ tail) acc
  = match skip_ws tail with
    | [] => None
    | c2 :: r4 =>
      if c2 =? 125 then Some (PyDict (Dict.set acc k v), r4)
      else if c2 =? 44 then parse_members pv n (skip_ws r4) (Dict.set acc k v)
      else None
    end.
Proof.
  intros Hk Hpv Hskip. unfold encode_str. cbn [app]. rewrite <- app_assoc. cbn [app].
  cbn [parse_members N.eqb Pos.eqb].
  rewrite (scan_escaped_exact ensure_ascii _ k (fun _ => Hk)).
  - rewrite (skip_ws_head 58 _ eq_refl). cbn [N.eqb Pos.eqb].
    change (skip_ws (32 :: s ++ tail)) with (skip_ws (s ++ tail)).
    now rewrite Hskip, Hpv.
  - rewrite length_app. pose proof (length_escape ensure_ascii k). lia.
Qed.

Lemma parse_members_encoded (f level : nat) (rest : pystr) :
  forall (items : list (pystr * pyval)) (parts : list pystr),
    Forall2 (fun kv p =>
               exists s, p = encode_str ensure_ascii (fst kv) ++ [58; 32] ++ s
                         /\ reads_back rt (snd kv) s /\ (depth (snd kv) < f)%nat
                         /\ forallb scalar (fst kv) = true) items parts ->
    items <> [] ->
    forall (n : nat) (acc : list (pystr * pyval)), (length items <= n)%nat ->
    distinct (map fst (acc ++ items)) = true ->
    parse_members (parse_value rt f) n
      (join (item_separator indent (S level)) parts
         ++ newline_indent indent level ++ 125 :: rest) acc
    = Some (PyDict (acc ++ items), rest).
Proof.
  induction items as [|[k v] items IH]; intros parts HF Hne n acc Hn Hdist; [congruence|].
  inversion HF as [|? p ? ps (s & Hp & Hv & Hd & Hk) HF']; subst. cbn [fst snd] in *.
  destruct Hv as ((c & t & Hs & Hws & _) & _ & Hparse).
  destruct n as [|n]; [simpl in Hn; lia|].
  rewrite map_app in Hdist. cbn [map fst] in Hdist.
  apply distinct_app_cons in Hdist as [Hfresh Hdist].
  assert (Hset : Dict.set acc k v = acc ++ [(k, v)]) by (now apply dict_set_absent).
  destruct items as [|kv2 more].
  - inversion HF'; subst. cbn [join]. rewrite <- !app_assoc.
    rewrite parse_member_step with (v := v).
    + rewrite skip_ws_newline_indent, (skip_ws_head 125 rest eq_refl).
      cbn [N.eqb Pos.eqb]. now rewrite Hset.
    + exact Hk.
    + apply Hparse; [exact Hd|]. now apply delimited_newline_indent.
    + cbn [app]. apply skip_ws_head. exact Hws.
  - inversion HF' as [|? p2 ? ps' (s2 & Hp2 & _) HF'']; subst.
    rewrite join_cons2, <- !app_assoc.
    rewrite parse_member_step with (v := v).
    + rewrite skip_item_separator. cbn [N.eqb Pos.eqb].
      rewrite skip_ws_separator_space.
      match goal with
      | |- context [skip_ws ?X] => assert (Hskip : skip_ws X = X)
      end.
      { unfold encode_str. destruct ps'; cbn [join app]; now apply skip_ws_head. }
      rewrite Hskip, Hset.
      replace (acc ++ (k, v) :: kv2 :: more) with ((acc ++ [(k, v)]) ++ kv2 :: more)
        by (now rewrite <- app_assoc).
      apply IH; [exact HF' | discriminate | simpl in *; lia |].
      rewrite !map_app in *. cbn [map fst] in *. exact Hdist.
    + exact Hk.
    + apply Hparse; [exact Hd | now rewrite item_separator_shape].
    + cbn [app]. apply skip_ws_head. exact Hws.
Qed.

End RoundTripLoops.

Section RoundTripMain.
Variable rt : PyRuntime.
Variable indent : option nat.
Variable ensure_ascii : bool.

Lemma parse_value_list (f : nat) (r : pystr) (c' : N) (r' : pystr) :
  skip_ws r = c' :: r' -> (c' =? 93) = false ->
  parse_value rt (S f) (91 :: r)
  = parse_elements (parse_value rt f) (S (length r)) (c' :: r') [].
Proof. intros H H'. cbn [parse_value N.eqb Pos.eqb]. now rewrite H, H'. Qed.

Lemma parse_value_dict (f : nat) (r : pystr) (c' : N) (r' : pystr) :
  skip_ws r = c' :: r' -> (c' =? 125) = false ->
  parse_value rt (S f) (123 :: r)
  = parse_members (parse_value rt f) (S (length r)) (c' :: r') [].
Proof. intros H H'. cbn [parse_value N.eqb Pos.eqb]. now rewrite H, H'. Qed.

Lemma encode_list_nonempty (level : nat) (x : pyval) (l : list pyval) :
  encode rt indent ensure_ascii level (PyList (x :: l))
  = match map_result (encode rt indent ensure_ascii (S level)) (x :: l) with
    | inl e => inl e
    | inr parts =>
      inr (91 :: newline_indent indent (S level)
              ++ join (item_separator indent (S level)) parts
              ++ newline_indent indent level ++ [93])
    end.
Proof. reflexivity. Qed.

Lemma encode_dict_nonempty (level : nat) (x : pystr * pyval) (d : list (pystr * pyval)) :
  encode rt indent ensure_ascii level (PyDict (x :: d))
  = match map_result
            (fun kv : pystr * pyval =>
               match encode rt indent ensure_ascii (S level) (snd kv) with
               | inl e => inl e
               | inr s => inr (encode_str ensure_ascii (fst kv) ++ [58; 32] ++ s)
               end) (x :: d) with
    | inl e => inl e
    | inr parts =>
      inr (123 :: newline_indent indent (S level)
               ++ join (item_separator indent (S level)) parts
               ++ newline_indent indent level ++ [125])
    end.
Proof. reflexivity. Qed.

Lemma simple_head (text : pystr) (c : N) (t : pystr) :
  text = c :: t -> is_ws c = false -> (c =? 93) = false -> (c =? 125) = false ->
  exists c t, text = c :: t /\ is_ws c = false /\ (c =? 93) = false /\ (c =? 125) = false.
Proof. intros. eauto 10. Qed.

Lemma digit_or_minus_head (c : N) :
  (is_digit c || (c =? 45)) = true ->
  is_ws c = false /\ (c =? 93) = false /\ (c =? 125) = false.
Proof.
  unfold is_digit, is_ws. rewrite orb_true_iff, andb_true_iff, !N.leb_le, N.eqb_eq.
  intros H. rewrite !orb_false_iff. repeat split; apply N.eqb_neq; lia.
Qed.

Lemma list_parts (level : nat) (l : list pyval) :
  Forall (fun v => plain v = true ->
                   forall level, exists text,
                     encode rt indent ensure_ascii level v = inr text
                     /\ reads_back rt v text) l ->
  forallb plain l = true ->
  exists parts,
    map_result (encode rt indent ensure_ascii level) l = inr parts
    /\ Forall2 (fun v p => reads_back rt v p) l parts.
Proof.
  induction 1 as [|v l Hv Hl IH]; intros Hplain.
  - exists []. split; [reflexivity | constructor].
  - simpl in Hplain. apply andb_true_iff in Hplain as [Hpv Hpl].
    destruct (Hv Hpv level) as (p & Hp & Hr). destruct (IH Hpl) as (ps & Hps & HF).
    exists (p :: ps). split; [simpl; now rewrite Hp, Hps | now constructor].
Qed.

Lemma dict_parts (level : nat) (d : list (pystr * pyval)) :
  Forall (fun kv => plain (snd kv) = true ->
                    forall level, exists text,
                      encode rt indent ensure_ascii level (snd kv) = inr text
                      /\ reads_back rt (snd kv) text) d ->
  forallb (fun kv : pystr * pyval => forallb scalar (fst kv) && plain (snd kv)) d = true ->
  exists parts,
    map_result
      (fun kv : pystr * pyval =>
         match encode rt indent ensure_ascii level (snd kv) with
         | inl e => inl e
         | inr s => inr (encode_str ensure_ascii (fst kv) ++ [58; 32] ++ s)
         end) d = inr parts
    /\ Forall2 (fun kv p =>
                  exists s, p = encode_str ensure_ascii (fst kv) ++ [58; 32] ++ s
                            /\ reads_back rt (snd kv) s
                            /\ forallb scalar (fst kv) = true) d parts.
Proof.
  induction 1 as [|kv d Hv Hd IH]; intros Hplain.
  - exists []. split; [reflexivity | constructor].
  - simpl in Hplain. apply andb_true_iff in Hplain as [Hkv Hpd].
    apply andb_true_iff in Hkv as [Hk Hpv].
    destruct (Hv Hpv level) as (s & Hs & Hr). destruct (IH Hpd) as (ps & Hps & HF).
    exists ((encode_str ensure_ascii (fst kv) ++ [58; 32] ++ s) :: ps).
    split; [cbn [map_result]; now rewrite Hs, Hps|]. constructor; [|exact HF]. eauto.
Qed.

Lemma parts_nonempty {A : Type} (R : A -> pystr -> Prop) (l : list A) (parts : list pystr) :
  Forall2 R l parts ->
  (forall x p, R x p -> (1 <= length p)%nat) ->
  length parts = length l /\ Forall (fun p => (1 <= length p)%nat) parts.
Proof.
  induction 1 as [|x p l ps Hx HF IH]; intros HR; [split; [reflexivity | constructor]|].
  destruct (IH HR) as [Hlen Hall]. split; [simpl; now rewrite Hlen|].
  constructor; [now apply (HR x) | exact Hall].
Qed.

Lemma reads_back_nonempty (v : pyval) (p : pystr) : reads_back rt v p -> (1 <= length p)%nat.
Proof. intros ((c & t & -> & _) & _). simpl. lia. Qed.

Lemma depth_bound_list (l : list pyval) (parts : list pystr) (sep : pystr) :
  Forall2 (fun v p => reads_back rt v p) l parts ->
  (list_max (map depth l) <= length (join sep parts))%nat.
Proof.
  intros HF. apply list_max_le. apply Forall_map.
  assert (H : forall ps, Forall2 (fun v p => reads_back rt v p) l ps ->
                         (forall p, In p ps -> (length p <= length (join sep parts))%nat) ->
                         Forall (fun v => (depth v <= length (join sep parts))%nat) l).
  { clear HF. induction l as [|v l IH]; intros ps HF Hin; [constructor|].
    inversion HF as [|? p ? ps' Hv HF']; subst. constructor.
    - destruct Hv as (_ & Hd & _). specialize (Hin p (or_introl eq_refl)). lia.
    - apply (IH ps' HF'). intros q Hq. apply Hin. now right. }
  apply (H parts HF). intros p Hp. now apply join_part_length.
Qed.

Lemma depth_bound_dict (d : list (pystr * pyval)) (parts : list pystr) (sep : pystr) :
  Forall2 (fun kv p =>
             exists s, p = encode_str ensure_ascii (fst kv) ++ [58; 32] ++ s
                       /\ reads_back rt (snd kv) s
                       /\ forallb scalar (fst kv) = true) d parts ->
  (list_max (map (fun kv : pystr * pyval => depth (snd kv)) d) <= length (join sep parts))%nat.
Proof.
  intros HF. apply list_max_le. apply Forall_map.
  assert (H : forall ps,
             Forall2 (fun kv p =>
                        exists s, p = encode_str ensure_ascii (fst kv) ++ [58; 32] ++ s
                                  /\ reads_back rt (snd kv) s
                                  /\ forallb scalar (fst kv) = true) d ps ->
             (forall p, In p ps -> (length p <= length (join sep parts))%nat) ->
             Forall (fun kv => (depth (snd kv) <= length (join sep parts))%nat) d).
  { clear HF. induction d as [|kv d IH]; intros ps HF Hin; [constructor|].
    inversion HF as [|? p ? ps' (s & Hp & Hv & _) HF']; subst. constructor.
    - destruct Hv as (_ & Hd & _).
      specialize (Hin _ (or_introl eq_refl)). rewrite !length_app in Hin. lia.
    - apply (IH ps' HF'). intros q Hq. apply Hin. now right. }
  apply (H parts HF). intros p Hp. now apply join_part_length.
Qed.

Lemma forall2_with_depth {A : Type} (R : A -> pystr -> Prop) (dp : A -> nat) (f : nat)
  (l : list A) (parts : list pystr) :
  Forall2 R l parts -> (list_max (map dp l) < f)%nat ->
  Forall2 (fun x p => R x p /\ (dp x < f)%nat) l parts.
Proof.
  induction 1 as [|x p l ps Hx HF IH]; intros Hmax; [constructor|].
  simpl in Hmax. constructor; [split; [exact Hx | lia]|]. apply IH. lia.
Qed.

(** What [encode] writes for a plain value, [parse_value] reads as that
    value. *)
Lemma encode_reads_back :
  forall v, plain v = true ->
  forall level, exists text,
    encode rt indent ensure_ascii level v = inr text /\ reads_back rt v text.
Proof.
  induction v as [ | b | z | fl | s | b | l IHl | d IHd ] using pyval_induction;
    intros Hplain level; try discriminate.
  - exists (py "null"). split; [reflexivity|]. split; [|split].
    + eapply simple_head; reflexivity.
    + simpl. lia.
    + intros [|fuel] rest Hf _; [simpl in Hf; lia | reflexivity].
  - exists (if b then py "true" else py "false"). split; [destruct b; reflexivity|].
    split; [|split].
    + destruct b; eapply simple_head; reflexivity.
    + simpl. lia.
    + intros [|fuel] rest Hf _; [simpl in Hf; lia | destruct b; reflexivity].
  - exists (str_of_int z). split; [reflexivity|].
    destruct (str_of_int_head z) as (c & r & Hz & Hc).
    destruct (digit_or_minus_head c Hc) as (Hws & H93 & H125).
    split; [|split].
    + now apply (simple_head _ c r).
    + simpl. lia.
    + intros [|fuel] rest Hf Hrest; [simpl in Hf; lia|].
      pose proof (scan_number_int rt z rest Hrest) as Hnum.
      rewrite Hz in *. cbn [app] in *. now apply parse_value_number.
  - exists (encode_str ensure_ascii s). split; [reflexivity|]. split; [|split].
    + eapply simple_head; reflexivity.
    + simpl. lia.
    + intros [|fuel] rest Hf _; [simpl in Hf; lia|].
      unfold encode_str. cbn [app]. rewrite <- app_assoc. cbn [app].
      cbn [parse_value N.eqb Pos.eqb].
      rewrite (scan_escaped_exact ensure_ascii rest s (fun _ => Hplain)); [reflexivity|].
      rewrite length_app. pose proof (length_escape ensure_ascii s). lia.
  - destruct l as [|x l].
    { exists (py "[]"). split; [reflexivity|]. split; [|split].
      - eapply simple_head; reflexivity.
      - simpl. lia.
      - intros [|fuel] rest Hf _; [simpl in Hf; lia | reflexivity]. }
    destruct (list_parts (S level) _ IHl Hplain) as (parts & Hparts & HF).
    rewrite encode_list_nonempty, Hparts. eexists. split; [reflexivity|].
    destruct (parts_nonempty _ _ _ HF reads_back_nonempty) as [Hlen Hne].
    pose proof (join_length (item_separator indent (S level)) parts Hne) as Hjoin.
    pose proof (depth_bound_list _ _ (item_separator indent (S level)) HF) as Hdepth.
    split; [|split].
    + eapply simple_head; reflexivity.
    + cbn [depth length]. rewrite !length_app. lia.
    + intros [|fuel] rest Hf Hrest; [lia|]. cbn [depth] in Hf.
      cbn [app]. rewrite <- !app_assoc. cbn [app].
      inversion HF as [|? p ? ps Hx HF']; subst.
      pose proof Hx as ((c & t & Hp & Hws & H93 & _) & _).
      destruct (join_head (item_separator indent (S level)) c t ps
                  (newline_indent indent level ++ 93 :: rest)) as [t' Ht'].
      rewrite Hp in *.
      rewrite (parse_value_list fuel _ c t').
      * replace (c :: t')
          with (join (item_separator indent (S level)) ((c :: t) :: ps)
                  ++ newline_indent indent level ++ 93 :: rest) by exact Ht'.
        apply (parse_elements_encoded rt indent fuel level rest (x :: l) ((c :: t) :: ps)).
        -- apply forall2_with_depth; [exact HF | lia].
        -- discriminate.
        -- rewrite !length_app. rewrite Hlen in Hjoin. simpl in *. lia.
      * rewrite skip_ws_newline_indent.
        transitivity (skip_ws (c :: t')); [f_equal; exact Ht' | now apply skip_ws_head].
      * exact H93.
  - simpl in Hplain. apply andb_true_iff in Hplain as [Hplain Hdist].
    destruct d as [|x d].
    { exists (py "{}"). split; [reflexivity|]. split; [|split].
      - eapply simple_head; reflexivity.
      - simpl. lia.
      - intros [|fuel] rest Hf _; [simpl in Hf; lia | reflexivity]. }
    destruct (dict_parts (S level) _ IHd Hplain) as (parts & Hparts & HF).
    rewrite encode_dict_nonempty, Hparts. eexists. split; [reflexivity|].
    assert (Hne1 : forall (kv : pystr * pyval) p,
               (exists s, p = encode_str ensure_ascii (fst kv) ++ [58; 32] ++ s
                          /\ reads_back rt (snd kv) s
                          /\ forallb scalar (fst kv) = true) -> (1 <= length p)%nat).
    { intros kv p (s & -> & _). unfold encode_str. simpl. lia. }
    destruct (parts_nonempty _ _ _ HF Hne1) as [Hlen Hne].
    pose proof (join_length (item_separator indent (S level)) parts Hne) as Hjoin.
    pose proof (depth_bound_dict _ _ (item_separator indent (S level)) HF) as Hdepth.
    split; [|split].
    + eapply simple_head; reflexivity.
    + cbn [depth length]. rewrite !length_app. lia.
    + intros [|fuel] rest Hf Hrest; [lia|]. cbn [depth] in Hf.
      cbn [app]. rewrite <- !app_assoc. cbn [app].
      inversion HF as [|? p ? ps (s & Hp & Hx & Hk) HF']; subst.
      destruct (join_head (item_separator indent (S level)) 34
                  (escape ensure_ascii (fst x) ++ [34] ++ [58; 32] ++ s) ps
                  (newline_indent indent level ++ 125 :: rest)) as [t' Ht'].
      assert (Henc : encode_str ensure_ascii (fst x) ++ [58; 32] ++ s
                     = 34 :: escape ensure_ascii (fst x) ++ [34] ++ [58; 32] ++ s).
      { unfold encode_str. cbn [app]. now rewrite <- app_assoc. }
      rewrite (parse_value_dict fuel _ 34 t').
      * replace (34 :: t')
          with (join (item_separator indent (S level))
                  ((encode_str ensure_ascii (fst x) ++ [58; 32] ++ s) :: ps)
                  ++ newline_indent indent level ++ 125 :: rest)
          by (rewrite Henc; exact Ht').
        apply (parse_members_encoded rt indent ensure_ascii fuel level rest (x :: d)
                 ((encode_str ensure_ascii (fst x) ++ [58; 32] ++ s) :: ps)).
        -- assert (HF2 := forall2_with_depth _ (fun kv : pystr * pyval => depth (snd kv))
                             fuel _ _ HF ltac:(lia)).
           clear - HF2. induction HF2 as [|kv p l ps0 [(s0 & H1 & H2 & H3) H4] _ IH];
             constructor; [eauto 10 | exact IH].
        -- discriminate.
        -- rewrite !length_app. rewrite Hlen in Hjoin. simpl in *. lia.
        -- exact Hdist.
      * rewrite skip_ws_newline_indent, Henc.
        transitivity (skip_ws (34 :: t')); [f_equal; exact Ht' | now apply skip_ws_head].
      * reflexivity.
Qed.

End RoundTripMain.

End JsonRoundTrip.

(** ** What is stored or received reads back *)

Section RoundTripFacts.
Import FastMCPTool AdvancedMCPTool.
Variable rt : PyRuntime.
Variable server : http_request -> http_outcome.

(** [json.loads(json.dumps(v))] is [v] for a plain value, with or without
    indentation and ASCII escaping. *)
Lemma dumps_loads (indent : option nat) (ensure_ascii : bool) (v : pyval) :
  plain v = true ->
  exists text,
    Json.dumps rt indent ensure_ascii v = inr text /\ Json.loads rt text = Some v.
Proof.
  intros Hplain.
  destruct (encode_reads_back rt indent ensure_ascii v Hplain 0)
    as (text & Henc & (c & t & Ht & Hws & _) & Hdepth & Hparse).
  exists text. split; [exact Henc|]. unfold Json.loads.
  assert (Hskip : Json.skip_ws text = text) by (rewrite Ht; now apply skip_ws_head).
  rewrite Hskip. rewrite <- (app_nil_r text) at 2.
  rewrite Hparse; [reflexivity | lia | reflexivity].
Qed.



End RoundTripFacts.



Lemma tool_store_then_retrieve_witness :
  let tool := AdvancedMCPTool.__init__ (py "http://localhost:8000") None None in
  exists tool',
    AdvancedMCPTool.store_research_data tool (py "a") (PyInt 1) fresh_world
    = (inr (py "✅ Data stored successfully with key: " ++ py "a", tool'), fresh_world)
    /\ AdvancedMCPTool.retrieve_research_data example_runtime tool' (py "b")
       = AdvancedMCPTool.retrieve_research_data example_runtime tool (py "b").
Proof.
  intros tool.
  destruct (tool_store_then_retrieve example_runtime tool (py "a") (PyInt 1) fresh_world)
    as (tool' & Hs & _ & _ & Hother).
  exists tool'. split; [exact Hs|]. apply Hother. vm_compute. discriminate.
Defined.
